(** * Alerting & Notification Platform: bootstrap script and HTTP test harness

    A shallow embedding of [run.py] (process bootstrap) and [test_system.py]
    (black-box HTTP harness), with the properties of their error handling
    and of the REST contract the harness exercises.

    Conventions of the embedding:
    - a Python [str] is a Rocq [string], one [ascii] per character;
    - values decoded from JSON are [pyval]s; a [dict] is an association list
      in insertion order, read by first match (a real dict has distinct keys);
    - an f-string is kept as its pieces ([text]): the literal parts and the
      values substituted, so formatting a value never has to be computed;
    - effects (console, HTTP client, web framework) go through one
      state/trace/exception monad [Py]; the collaborators the scripts import
      ([requests], [app.create_app], the clock) are interfaces over the world;
    - [print] is taken to succeed, and exceptions arise only where the code
      or a collaborator raises them (no asynchronous signals). *)

From Stdlib Require Import ZArith String Ascii List Bool Lia.
From Stdlib Require Import Floats.SpecFloat.
From stdpp Require Import base option list gmap strings pretty.

Import ListNotations.
Local Open Scope string_scope.
Local Open Scope list_scope.

(** ** Python values *)

Local Set Warnings "-register-all".

Inductive pyval :=
| VNone
| VBool (b : bool)
| VInt (z : Z)
| VFloat (f : spec_float)
| VStr (s : string)
| VList (l : list pyval)
| VDict (d : list (string * pyval)).

(** The pieces of an f-string: literal text, [{v}] and [{v!r}]. *)
Inductive frag :=
| Lit (s : string)
| Str_ (v : pyval)
| Repr (v : pyval).

Definition text := list frag.

Definition nl : string := String (ascii_of_nat 10) EmptyString.

(** [s * n] on strings. *)
Fixpoint str_repeat (s : string) (n : nat) : string :=
  match n with
  | O => EmptyString
  | S n' => s ++ str_repeat s n'
  end.

(** ** Exceptions *)

(** The classes the two scripts can meet. [KeyboardInterrupt], [SystemExit]
    and [OtherBaseException] derive from [BaseException] only; every other
    class derives from [Exception]. [RequestsConnectionError] stands for
    [requests.exceptions.ConnectionError] and its subclasses. *)
Inductive exn_class :=
| KeyboardInterrupt
| SystemExit
| OtherBaseException (name : string)
| ValueError
| TypeError
| KeyError
| IndexError
| AttributeError
| UnboundLocalError
| JSONDecodeError
| RequestsConnectionError
| OtherException (name : string).

Record exn := Exn { exn_cls : exn_class; exn_args : text }.

(** [isinstance(e, Exception)] *)
Definition is_Exception (c : exn_class) : bool :=
  match c with
  | KeyboardInterrupt | SystemExit | OtherBaseException _ => false
  | _ => true
  end.

(** [isinstance(e, requests.exceptions.ConnectionError)] *)
Definition is_ConnectionError (c : exn_class) : bool :=
  match c with
  | RequestsConnectionError => true
  | _ => false
  end.

Definition is_KeyboardInterrupt (c : exn_class) : bool :=
  match c with
  | KeyboardInterrupt => true
  | _ => false
  end.

(** [str(e)] for an exception built from one message. *)
Definition str_exn (e : exn) : text := exn_args e.

(** [sys.exit(code)] raises [SystemExit(code)]. *)
Definition SystemExit_ (code : Z) : exn := Exn SystemExit [Str_ (VInt code)].

(** ** [int] and [upper] on ASCII text

    [int] strips white space, reads an optional sign and decimal digits
    that single underscores may separate (the limit recent interpreters put
    on the number of digits is left out); [upper] maps [a-z] to [A-Z]. *)
Module AsciiBuiltins.

Definition is_space (c : ascii) : bool :=
  let n := nat_of_ascii c in
  ((9 <=? n)%nat && (n <=? 13)%nat) || ((28 <=? n)%nat && (n <=? 32)%nat).

Definition digit_of (c : ascii) : option Z :=
  let n := nat_of_ascii c in
  if (48 <=? n)%nat && (n <=? 57)%nat then Some (Z.of_nat (n - 48)) else None.

Fixpoint lstrip (l : list ascii) : list ascii :=
  match l with
  | c :: r => if is_space c then lstrip r else l
  | [] => []
  end.

Definition strip (l : list ascii) : list ascii :=
  rev (lstrip (rev (lstrip l))).

(** [after_digit] tells whether the previous character was a digit: an
    underscore must stand between two digits. *)
Fixpoint digits (acc : Z) (after_digit : bool) (l : list ascii) : option Z :=
  match l with
  | [] => if after_digit then Some acc else None
  | c :: r =>
      match digit_of c with
      | Some d => digits (acc * 10 + d)%Z true r
      | None =>
          if Ascii.eqb c "_"%char && after_digit then digits acc false r
          else None
      end
  end.

Definition signed (l : list ascii) : option Z :=
  match l with
  | c :: r =>
      if Ascii.eqb c "-"%char then Z.opp <$> digits 0 false r
      else if Ascii.eqb c "+"%char then digits 0 false r
      else digits 0 false l
  | [] => None
  end.

Definition invalid_literal (s : string) : exn :=
  Exn ValueError [Lit "invalid literal for int() with base 10: "; Repr (VStr s)].

Definition int (s : string) : exn + Z :=
  match signed (strip (list_ascii_of_string s)) with
  | Some z => inr z
  | None => inl (invalid_literal s)
  end.

Definition upper_char (c : ascii) : ascii :=
  let n := nat_of_ascii c in
  if (97 <=? n)%nat && (n <=? 122)%nat then ascii_of_nat (n - 32) else c.

Fixpoint upper (s : string) : string :=
  match s with
  | EmptyString => EmptyString
  | String c r => String (upper_char c) (upper r)
  end.

Definition is_ascii (s : string) : bool :=
  forallb (fun c => (nat_of_ascii c <? 128)%nat) (list_ascii_of_string s).

End AsciiBuiltins.

(** ** Built-ins whose behaviour depends on Unicode tables *)

(** [int] and [upper] follow Unicode; on ASCII text [upper] is the ASCII
    one. *)
Class Builtins := {
  (** [int(s)] for a string *)
  int_of_str : string -> exn + Z;
  int_of_str_raises : forall s e, int_of_str s = inl e -> exn_cls e = ValueError;
  (** [s.upper()] *)
  str_upper : string -> string;
  str_upper_ascii : forall s,
    AsciiBuiltins.is_ascii s = true -> str_upper s = AsciiBuiltins.upper s
}.

(** ** Operations on Python values *)

Module PyOps.

Definition type_name (v : pyval) : string :=
  match v with
  | VNone => "NoneType"
  | VBool _ => "bool"
  | VInt _ => "int"
  | VFloat _ => "float"
  | VStr _ => "str"
  | VList _ => "list"
  | VDict _ => "dict"
  end.

(** [bool(v)] *)
Definition truthy (v : pyval) : bool :=
  match v with
  | VNone => false
  | VBool b => b
  | VInt z => negb (z =? 0)%Z
  | VFloat (S754_zero _) => false
  | VFloat _ => true
  | VStr EmptyString => false
  | VStr _ => true
  | VList [] => false
  | VList _ => true
  | VDict [] => false
  | VDict _ => true
  end.

Fixpoint dict_lookup (key : string) (d : list (string * pyval)) : option pyval :=
  match d with
  | [] => None
  | (k, v) :: r => if String.eqb k key then Some v else dict_lookup key r
  end.

(** [v == s] for a string literal [s] *)
Definition eq_str (v : pyval) (s : string) : bool :=
  match v with
  | VStr s' => String.eqb s' s
  | _ => false
  end.

Fixpoint is_prefix (p s : string) : bool :=
  match p, s with
  | EmptyString, _ => true
  | String a p', String b s' => Ascii.eqb a b && is_prefix p' s'
  | String _ _, EmptyString => false
  end.

Fixpoint is_substring (p s : string) : bool :=
  is_prefix p s ||
  match s with
  | EmptyString => false
  | String _ s' => is_substring p s'
  end.

Fixpoint chars (s : string) : list pyval :=
  match s with
  | EmptyString => []
  | String c r => VStr (String c EmptyString) :: chars r
  end.

Definition no_attribute (v : pyval) (attr : string) : exn :=
  Exn AttributeError
    [Repr (VStr (type_name v)); Lit " object has no attribute "; Repr (VStr attr)].

Definition not_subscriptable (v : pyval) : exn :=
  Exn TypeError [Repr (VStr (type_name v)); Lit " object is not subscriptable"].

Definition not_iterable (v : pyval) : exn :=
  Exn TypeError [Repr (VStr (type_name v)); Lit " object is not iterable"].

Definition not_container (v : pyval) : exn :=
  Exn TypeError [Lit "argument of type "; Repr (VStr (type_name v)); Lit " is not iterable"].

Definition no_len (v : pyval) : exn :=
  Exn TypeError [Lit "object of type "; Repr (VStr (type_name v)); Lit " has no len()"].

(** A string used as index of a list or of a string. *)
Definition bad_index (v : pyval) : exn :=
  Exn TypeError
    [Lit match v with
         | VStr _ => "string indices must be integers, not 'str'"
         | _ => "list indices must be integers or slices, not str"
         end].

Definition unbound_local (name : string) : exn :=
  Exn UnboundLocalError
    [Lit "cannot access local variable "; Repr (VStr name);
     Lit " where it is not associated with a value"].

(** [v.get(key, default)] *)
Definition get (v : pyval) (key : string) (default : pyval) : exn + pyval :=
  match v with
  | VDict d => inr (match dict_lookup key d with Some x => x | None => default end)
  | _ => inl (no_attribute v "get")
  end.

(** [key in v] for a string [key] *)
Definition contains (key : string) (v : pyval) : exn + bool :=
  match v with
  | VDict d => inr (match dict_lookup key d with Some _ => true | None => false end)
  | VList l => inr (existsb (fun x => eq_str x key) l)
  | VStr s => inr (is_substring key s)
  | _ => inl (not_container v)
  end.

(** [v[key]] for a string [key] *)
Definition getitem (v : pyval) (key : string) : exn + pyval :=
  match v with
  | VDict d =>
      match dict_lookup key d with
      | Some x => inr x
      | None => inl (Exn KeyError [Repr (VStr key)])
      end
  | VList _ | VStr _ => inl (bad_index v)
  | _ => inl (not_subscriptable v)
  end.

(** [v[0]]; the keys of a decoded JSON object are strings, so [0] is
    never one of them. *)
Definition getitem0 (v : pyval) : exn + pyval :=
  match v with
  | VList (x :: _) => inr x
  | VList [] => inl (Exn IndexError [Lit "list index out of range"])
  | VStr (String c _) => inr (VStr (String c EmptyString))
  | VStr EmptyString => inl (Exn IndexError [Lit "string index out of range"])
  | VDict _ => inl (Exn KeyError [Repr (VInt 0)])
  | _ => inl (not_subscriptable v)
  end.

(** The elements [for x in v] runs over. *)
Definition iter (v : pyval) : exn + list pyval :=
  match v with
  | VList l => inr l
  | VDict d => inr (map (fun kv => VStr (fst kv)) d)
  | VStr s => inr (chars s)
  | _ => inl (not_iterable v)
  end.

(** [len(v)] *)
Definition len (v : pyval) : exn + Z :=
  match v with
  | VList l => inr (Z.of_nat (length l))
  | VDict d => inr (Z.of_nat (length d))
  | VStr s => inr (Z.of_nat (String.length s))
  | _ => inl (no_len v)
  end.

(** [[x for x in l if keep(x)]] *)
Fixpoint comprehension (keep : pyval -> exn + bool) (l : list pyval)
  : exn + list pyval :=
  match l with
  | [] => inr []
  | x :: r =>
      match keep x with
      | inl e => inl e
      | inr b =>
          match comprehension keep r with
          | inl e => inl e
          | inr r' => inr (if b then x :: r' else r')
          end
      end
  end.

(** Reading a local variable that may not have been assigned. *)
Definition local {A} (name : string) (x : option A) : exn + A :=
  match x with
  | Some a => inr a
  | None => inl (unbound_local name)
  end.

Definition emap {A B} (f : A -> B) (r : exn + A) : exn + B :=
  match r with
  | inl e => inl e
  | inr a => inr (f a)
  end.

End PyOps.

(** ** The HTTP client and the observable events *)

Inductive http_method := GET | POST | PUT.

Record request := Request {
  req_method : http_method;
  req_url : text;
  req_json : option pyval;
  req_headers : list (string * string)
}.

(** What the harness reads of a [requests.Response]: [status_code], [text],
    whether [content] is non-empty, and the outcome of [json()]. *)
Record response := Response {
  status_code : Z;
  resp_text : string;
  resp_content : string;
  resp_json : exn + pyval
}.

Inductive event :=
| Print (t : text)
| Http (r : request)
| CreateApp (config_name : string)
| AppRun (host : string) (port : Z) (debug : bool)
| Call (method : string) (endpoint : text) (data : option pyval) (expected_status : Z).

(** ** The effect monad *)

Section Effects.
Context {W : Type}.

Record outcome (A : Type) := Outcome {
  world_of : W;
  trace_of : list event;
  result_of : exn + A
}.
Arguments Outcome {A}.
Arguments world_of {A}.
Arguments trace_of {A}.
Arguments result_of {A}.

Definition Py (A : Type) : Type := W -> outcome A.

Definition ret {A} (a : A) : Py A := fun w => Outcome w [] (inr a).

Definition raise {A} (e : exn) : Py A := fun w => Outcome w [] (inl e).

(** The events [t] happened before those of [o]. *)
Definition prepend {A} (t : list event) (o : outcome A) : outcome A :=
  Outcome (world_of o) (t ++ trace_of o) (result_of o).

Definition bind {A B} (m : Py A) (k : A -> Py B) : Py B := fun w =>
  match m w with
  | Outcome w1 t1 (inl e) => Outcome w1 t1 (inl e)
  | Outcome w1 t1 (inr a) => prepend t1 (k a w1)
  end.

Definition emit (ev : event) : Py unit := fun w => Outcome w [ev] (inr tt).

Definition print (t : text) : Py unit := emit (Print t).

(** A pure computation that may raise. *)
Definition liftE {A} (r : exn + A) : Py A := fun w => Outcome w [] r.

(** A call into a collaborator. *)
Definition extern {A} (f : W -> W * (exn + A)) : Py A := fun w =>
  let '(w1, r) := f w in Outcome w1 [] r.

(** [try: body  except ...:] where [handler e] is the first clause that
    matches [e], if any. *)
Definition try_except {A} (body : Py A) (handler : exn -> option (Py A)) : Py A :=
  fun w =>
    match body w with
    | Outcome w1 t1 (inl e) =>
        match handler e with
        | Some h => prepend t1 (h w1)
        | None => Outcome w1 t1 (inl e)
        end
    | o => o
    end.
End Effects.

Arguments outcome : clear implicits.
Arguments Py : clear implicits.
Arguments Outcome {W A}.
Arguments world_of {W A}.
Arguments trace_of {W A}.
Arguments result_of {W A}.
Arguments prepend {W A}.

Notation "'let*' x := m 'in' k" := (bind m (fun x => k))
  (at level 10, x name, m at level 100, k at level 200, only parsing).
Notation "m ;;; k" := (bind m (fun _ => k))
  (at level 100, k at level 200, right associativity, only parsing).

(** ** run.py *)

Module Run.

(** The web framework as [run.py] uses it: [create_app(config_name)] and
    [app.run(host=..., port=..., debug=...)], which blocks until the
    server stops and then returns or raises. *)
Class Flask (W : Type) := {
  flask_app : Type;
  create_app : string -> W -> W * (exn + flask_app);
  app_run : flask_app -> string -> Z -> bool -> W -> W * (exn + unit)
}.

(** [os.getenv(key, default)] *)
Definition getenv {A} (env : gmap string string) (key : string) (default : A)
  : string + A :=
  match env !! key with
  | Some s => inl s
  | None => inr default
  end.

Definition str_or (x : string + string) : string :=
  match x with
  | inl s => s
  | inr d => d
  end.

(** [int(x)] where [x] is a string or already an integer. *)
Definition int_ `{Builtins} (x : string + Z) : exn + Z :=
  match x with
  | inl s => int_of_str s
  | inr z => inr z
  end.

Definition shutdown_message : text :=
  [Lit (nl ++ "👋 Shutting down Alerting Platform...")].

Definition error_message (e : exn) : text :=
  Lit (nl ++ "❌ Error starting application: ") :: str_exn e.

Section Main.
Context `{Builtins} {W : Type} `{Flask W}.

Definition main (env : gmap string string) : Py W unit :=
  let config_name := str_or (getenv env "FLASK_ENV" "development") in
  let* app := (emit (CreateApp config_name) ;;; extern (create_app config_name)) in
  let host := str_or (getenv env "HOST" "127.0.0.1") in
  let* port := liftE (int_ (getenv env "PORT" 5000%Z)) in
  let debug := String.eqb config_name "development" in
  print [Lit (nl ++ "🚀 Starting Alerting & Notification Platform")] ;;;
  print [Lit "📍 Running on http://"; Str_ (VStr host); Lit ":"; Str_ (VInt port)] ;;;
  print [Lit "🔧 Environment: "; Str_ (VStr config_name)] ;;;
  print [Lit "🐛 Debug mode: "; Str_ (VBool debug)] ;;;
  (if String.eqb config_name "development" then
     print [Lit (nl ++ "📚 API Documentation:")] ;;;
     print [Lit "   Admin APIs: http://"; Str_ (VStr host); Lit ":"; Str_ (VInt port);
            Lit "/api/admin/"] ;;;
     print [Lit "   User APIs:  http://"; Str_ (VStr host); Lit ":"; Str_ (VInt port);
            Lit "/api/user/"] ;;;
     print [Lit "   Analytics:  http://"; Str_ (VStr host); Lit ":"; Str_ (VInt port);
            Lit "/api/analytics/"] ;;;
     print [Lit (nl ++ "💡 Sample admin user: admin@example.com")]
   else ret tt) ;;;
  print [Lit (nl ++ str_repeat "=" 50)] ;;;
  try_except
    (emit (AppRun host port debug) ;;;
     extern (app_run app host port debug))
    (fun e =>
       if is_KeyboardInterrupt (exn_cls e) then
         Some (print shutdown_message)
       else if is_Exception (exn_cls e) then
         Some (print (error_message e) ;;;
               raise (SystemExit_ 1))
       else None).
End Main.

End Run.

(** ** test_system.py *)

Module Harness.
Import PyOps.

(** [requests.get], [requests.post] and [requests.put]: one exchange with
    the server, which answers or raises. *)
Class Requests (W : Type) := {
  send : request -> W -> W * (exn + response)
}.

(** [datetime.utcnow()], [+ timedelta(hours=h)] and [.isoformat()]. *)
Class Clock (W : Type) := {
  datetime : Type;
  utcnow : W -> W * datetime;
  add_hours : datetime -> Z -> datetime;
  isoformat : datetime -> string
}.

Definition BASE_URL : string := "http://127.0.0.1:5000".

Definition json_headers : list (string * string) :=
  [("Content-Type", "application/json")].

Definition default_status : Z := 200.

Definition unsupported_method (method : string) : exn :=
  Exn ValueError [Lit "Unsupported method: "; Str_ (VStr method)].

Definition status_line (method : string) (endpoint : text) (expected_status : Z)
  (r : response) : text :=
  [Lit (if (status_code r =? expected_status)%Z then "✅" else "❌"); Lit " ";
   Str_ (VStr method); Lit " "] ++ endpoint
  ++ [Lit " - Status: "; Str_ (VInt (status_code r))].

Definition expected_line (expected_status : Z) (r : response) : text :=
  [Lit "   Expected: "; Str_ (VInt expected_status); Lit ", Got: ";
   Str_ (VInt (status_code r))].

Definition response_line (r : response) : text :=
  [Lit "   Response: "; Str_ (VStr (substring 0 200 (resp_text r))); Lit "..."].

Definition error_line (method : string) (endpoint : text) (e : exn) : text :=
  [Lit "❌ Error testing "; Str_ (VStr method); Lit " "] ++ endpoint
  ++ Lit ": " :: str_exn e.

Section Scripts.
Context `{Builtins} {W : Type} `{Requests W} `{Clock W}.

Definition http (r : request) : Py W response :=
  emit (Http r) ;;; extern (send r).

(** [test_api_endpoint(method, endpoint, data=None, expected_status=200)].
    The [Call] event records each call with its arguments. *)
Definition test_api_endpoint (method : string) (endpoint : text)
  (data : option pyval) (expected_status : Z) : Py W pyval :=
  emit (Call method endpoint data expected_status) ;;;
  let url := Lit BASE_URL :: endpoint in
  try_except
    (let* response :=
       (if String.eqb (str_upper method) "GET" then
          http (Request GET url None [])
        else if String.eqb (str_upper method) "POST" then
          http (Request POST url data json_headers)
        else if String.eqb (str_upper method) "PUT" then
          http (Request PUT url data json_headers)
        else raise (unsupported_method method)) in
     print (status_line method endpoint expected_status response) ;;;
     (if negb (status_code response =? expected_status)%Z then
        print (expected_line expected_status response) ;;;
        print (response_line response)
      else ret tt) ;;;
     match resp_content response with
     | String _ _ => liftE (resp_json response)
     | EmptyString => ret (VDict [])
     end)
    (fun e =>
       if is_ConnectionError (exn_cls e) then
         Some (print (Lit "❌ Connection failed to " :: url) ;;;
               print [Lit "   Make sure the server is running: python run.py"] ;;;
               ret VNone)
       else if is_Exception (exn_cls e) then
         Some (print (error_line method endpoint e) ;;;
               ret VNone)
       else None).

(** [x and <rest>] in a condition: [rest] is evaluated only when [x] is
    true. *)
Definition and_then (x : pyval) (rest : exn + bool) : exn + bool :=
  if truthy x then rest else inr false.

(** [u['is_admin']] as a filter. *)
Definition is_admin (u : pyval) : exn + bool :=
  emap truthy (getitem u "is_admin").

Definition not_admin (u : pyval) : exn + bool :=
  emap (fun v => negb (truthy v)) (getitem u "is_admin").

Definition is_active (a : pyval) : exn + bool :=
  emap truthy (getitem a "is_active").

Definition int_len {A} (l : list A) : pyval := VInt (Z.of_nat (length l)).

(** Test 2, "List users": binds [admin_users] and [regular_users] only
    when the listing has a ['users'] entry. *)
Definition list_users : Py W (option (list pyval) * option (list pyval)) :=
  let* users_response := test_api_endpoint "GET" [Lit "/api/admin/users"] None default_status in
  let* c := liftE (and_then users_response (contains "users" users_response)) in
  if c then
    let* users := liftE (getitem users_response "users") in
    let* elems := liftE (iter users) in
    let* admin_users := liftE (comprehension is_admin elems) in
    let* regular_users := liftE (comprehension not_admin elems) in
    let* n := liftE (len users) in
    print [Lit "   Found "; Str_ (VInt n); Lit " users ("; Str_ (int_len admin_users);
           Lit " admins, "; Str_ (int_len regular_users); Lit " regular)"] ;;;
    ret (Some admin_users, Some regular_users)
  else ret (None, None).

Definition list_teams : Py W unit :=
  let* teams_response := test_api_endpoint "GET" [Lit "/api/admin/teams"] None default_status in
  let* c := liftE (and_then teams_response (contains "teams" teams_response)) in
  if c then
    let* teams := liftE (getitem teams_response "teams") in
    let* n := liftE (len teams) in
    print [Lit "   Found "; Str_ (VInt n); Lit " teams"]
  else ret tt.

Definition list_alerts : Py W unit :=
  let* alerts_response := test_api_endpoint "GET" [Lit "/api/admin/alerts"] None default_status in
  let* c := liftE (and_then alerts_response (contains "alerts" alerts_response)) in
  if c then
    let* alerts := liftE (getitem alerts_response "alerts") in
    let* elems := liftE (iter alerts) in
    let* active_alerts := liftE (comprehension is_active elems) in
    let* n := liftE (len alerts) in
    print [Lit "   Found "; Str_ (VInt n); Lit " alerts ("; Str_ (int_len active_alerts);
           Lit " active)"]
  else ret tt.

(** Test 3, "Create New Alert". *)
Definition new_alert_data (admin_id : pyval) (expiry_time : string) : pyval :=
  VDict [("title", VStr "Test Alert - System Check");
         ("message", VStr "This is a test alert created by the system test script.");
         ("severity", VStr "info");
         ("visibility_type", VStr "organization");
         ("created_by", admin_id);
         ("expiry_time", VStr expiry_time)].

Definition update_data : pyval :=
  VDict [("severity", VStr "warning"); ("message", VStr "Updated test message")].

Definition create_alert (admin_users : option (list pyval)) : Py W unit :=
  print [Lit (nl ++ "➕ Testing Alert Creation...")] ;;;
  let* admins := liftE (local "admin_users" admin_users) in
  match admins with
  | [] => ret tt
  | first_admin :: _ =>
      let* admin_id := liftE (getitem first_admin "id") in
      let* now := extern (fun w => let '(w1, t) := utcnow w in (w1, inr t)) in
      let data := new_alert_data admin_id (isoformat (add_hours now 24) ++ "Z") in
      let* create_response :=
        test_api_endpoint "POST" [Lit "/api/admin/alerts"] (Some data) 201 in
      let* c := liftE (and_then create_response
                         (emap truthy (get create_response "success" VNone))) in
      if c then
        let* alert := liftE (getitem create_response "alert") in
        let* test_alert_id := liftE (getitem alert "id") in
        print [Lit "   Created test alert with ID: "; Str_ test_alert_id] ;;;
        test_api_endpoint "PUT" [Lit "/api/admin/alerts/"; Str_ test_alert_id]
          (Some update_data) default_status ;;;
        test_api_endpoint "POST"
          [Lit "/api/admin/alerts/"; Str_ test_alert_id; Lit "/archive"]
          None default_status ;;;
        print [Lit "   Cleaned up test alert"]
      else ret tt
  end.

Definition user_id_data (user_id : pyval) : pyval := VDict [("user_id", user_id)].

(** Test 4, "User APIs". *)
Definition user_apis (regular_users : option (list pyval)) : Py W unit :=
  print [Lit (nl ++ "👤 Testing User APIs...")] ;;;
  let* regulars := liftE (local "regular_users" regular_users) in
  match regulars with
  | [] => ret tt
  | test_user :: _ =>
      let* user_id := liftE (getitem test_user "id") in
      let* user_alerts :=
        test_api_endpoint "GET" [Lit "/api/user/alerts?user_id="; Str_ user_id]
          None default_status in
      let* c := liftE (and_then user_alerts (contains "alerts" user_alerts)) in
      if c then
        let* alerts := liftE (getitem user_alerts "alerts") in
        let* alerts_count := liftE (len alerts) in
        let* name := liftE (getitem test_user "name") in
        print [Lit "   User "; Str_ name; Lit " has "; Str_ (VInt alerts_count);
               Lit " visible alerts"] ;;;
        let* dashboard :=
          test_api_endpoint "GET" [Lit "/api/user/dashboard?user_id="; Str_ user_id]
            None default_status in
        let* d := liftE (and_then dashboard (contains "summary" dashboard)) in
        (if d then
           let* summary := liftE (getitem dashboard "summary") in
           let* unread := liftE (getitem summary "unread_count") in
           let* read := liftE (getitem summary "read_count") in
           let* snoozed := liftE (getitem summary "snoozed_count") in
           print [Lit "   Dashboard: "; Str_ unread; Lit " unread, "; Str_ read;
                  Lit " read, "; Str_ snoozed; Lit " snoozed"]
         else ret tt) ;;;
        if (0 <? alerts_count)%Z then
          let* alerts' := liftE (getitem user_alerts "alerts") in
          let* first_alert := liftE (getitem0 alerts') in
          let* alert_id := liftE (getitem first_alert "id") in
          test_api_endpoint "POST"
            [Lit "/api/user/alerts/"; Str_ alert_id; Lit "/read"]
            (Some (user_id_data user_id)) default_status ;;;
          test_api_endpoint "POST"
            [Lit "/api/user/alerts/"; Str_ alert_id; Lit "/snooze"]
            (Some (user_id_data user_id)) default_status ;;;
          test_api_endpoint "POST"
            [Lit "/api/user/alerts/"; Str_ alert_id; Lit "/unread"]
            (Some (user_id_data user_id)) default_status ;;;
          print [Lit "   Tested alert interactions (read/snooze/unread)"]
        else ret tt
      else ret tt
  end.

(** Test 5, "Analytics APIs". *)
Definition analytics_apis : Py W unit :=
  print [Lit (nl ++ "📈 Testing Analytics APIs...")] ;;;
  let* overview :=
    test_api_endpoint "GET" [Lit "/api/analytics/overview"] None default_status in
  let* c := liftE (and_then overview (contains "overview" overview)) in
  (if c then
     let* ov := liftE (getitem overview "overview") in
     let* alerts := liftE (getitem ov "alerts") in
     let* total := liftE (getitem alerts "total") in
     let* users := liftE (getitem ov "users") in
     let* total_users := liftE (getitem users "total_users") in
     print [Lit "   System overview: "; Str_ total; Lit " total alerts, ";
            Str_ total_users; Lit " users"]
   else ret tt) ;;;
  test_api_endpoint "GET" [Lit "/api/analytics/alerts/performance?limit=10"]
    None default_status ;;;
  test_api_endpoint "GET" [Lit "/api/analytics/trends/daily?days=7"]
    None default_status ;;;
  test_api_endpoint "GET" [Lit "/api/analytics/users/engagement?limit=10"]
    None default_status ;;;
  ret tt.

(** Test 6, "Notification History". *)
Definition notification_history (regular_users : option (list pyval)) : Py W unit :=
  print [Lit (nl ++ "📜 Testing Notification History...")] ;;;
  let* regulars := liftE (local "regular_users" regular_users) in
  match regulars with
  | [] => ret tt
  | first_user :: _ =>
      let* user_id := liftE (getitem first_user "id") in
      let* history :=
        test_api_endpoint "GET"
          [Lit "/api/user/notifications/history?user_id="; Str_ user_id;
           Lit "&per_page=5"]
          None default_status in
      let* c := liftE (and_then history (contains "deliveries" history)) in
      if c then
        let* deliveries := liftE (getitem history "deliveries") in
        let* n := liftE (len deliveries) in
        print [Lit "   Found "; Str_ (VInt n); Lit " notification deliveries"]
      else ret tt
  end.

(** Test 7, "System Statistics". *)
Definition system_statistics : Py W unit :=
  print [Lit (nl ++ "📊 Testing System Statistics...")] ;;;
  let* stats := test_api_endpoint "GET" [Lit "/api/admin/stats/system"] None default_status in
  if truthy stats then print [Lit "   Retrieved system statistics successfully"]
  else ret tt.

Definition closing_lines : list text :=
  [ [Lit (nl ++ str_repeat "=" 50)];
    [Lit "🎉 System Tests Completed!"];
    [Lit (nl ++ "Next steps:")];
    [Lit "1. Check the application logs for any errors"];
    [Lit "2. Test the reminder system by waiting 2 hours or triggering manually"];
    [Lit "3. Create alerts with different visibility types"];
    [Lit "4. Test with different user accounts"];
    [Lit (nl ++ "For manual testing, use the sample admin account:")];
    [Lit "- Email: admin@example.com"];
    [Lit "- Create alerts via: POST /api/admin/alerts"] ].

Fixpoint print_all (ls : list text) : Py W unit :=
  match ls with
  | [] => ret tt
  | t :: r => print t ;;; print_all r
  end.

Definition system_health : Py W unit :=
  print [Lit (nl ++ "📊 Testing System Health...")] ;;;
  let* health :=
    test_api_endpoint "GET" [Lit "/api/analytics/system/health"] None default_status in
  let* healthy :=
    liftE (and_then health
             (match get health "system_health" (VDict []) with
              | inl e => inl e
              | inr sh => emap (fun st => eq_str st "healthy") (get sh "overall_status" VNone)
              end)) in
  if healthy then print [Lit "✅ System is healthy"]
  else print [Lit "⚠️  System health check failed"].

Definition run_comprehensive_tests : Py W unit :=
  print [Lit "🧪 Starting Alerting Platform System Tests"] ;;;
  print [Lit (str_repeat "=" 50)] ;;;
  system_health ;;;
  print [Lit (nl ++ "👨‍💼 Testing Admin APIs...")] ;;;
  let* users := list_users in
  list_teams ;;;
  list_alerts ;;;
  create_alert (fst users) ;;;
  user_apis (snd users) ;;;
  analytics_apis ;;;
  notification_history (snd users) ;;;
  system_statistics ;;;
  print_all closing_lines.

Definition test_reminder_system : Py W unit :=
  print [Lit (nl ++ "⏰ Testing Reminder System...")] ;;;
  let* alerts_response :=
    test_api_endpoint "GET" [Lit "/api/admin/alerts?status=active"] None default_status in
  let* c := liftE (and_then alerts_response (contains "alerts" alerts_response)) in
  if c then
    let* active_alerts := liftE (getitem alerts_response "alerts") in
    if truthy active_alerts then
      let* first_alert := liftE (getitem0 active_alerts) in
      let* alert_id := liftE (getitem first_alert "id") in
      let* reminder_response :=
        test_api_endpoint "POST"
          [Lit "/api/admin/alerts/"; Str_ alert_id; Lit "/send-reminder"]
          None default_status in
      let* ok := liftE (and_then reminder_response
                          (emap truthy (get reminder_response "success" VNone))) in
      if ok then
        print [Lit "   ✅ Successfully triggered reminder for alert "; Str_ alert_id] ;;;
        let* sent := liftE (get reminder_response "reminders_sent" (VInt 0)) in
        print [Lit "   Sent "; Str_ sent; Lit " reminders"]
      else print [Lit "   ⚠️  Reminder trigger failed or no users needed reminders"]
    else print [Lit "   ℹ️  No active alerts found to test reminders"]
  else ret tt.
End Scripts.
End Harness.

(** ** The platform behind the endpoints

    The package [app] that implements the endpoints is not part of the
    repository slice; this module states the contract of sections 3, 4 and 6
    of the specification as a state machine. What the specification leaves
    open is a parameter ([Deployment]) or is left out: expiry needs a clock
    and can only take alerts out of the active ones; teams, analytics and
    history answer as unknown routes. *)

Module Backend.
Import PyOps.

(** Modelled from the spec: the per-user state of a delivery ("tracks
    read/unread/snoozed state"); the [app] package is missing. *)
Inductive read_state := Unread | Read | Snoozed.

(** Modelled from the spec: "User: id, name, email, is_admin"; the [app]
    package is missing. *)
Record user := User {
  user_id : Z;
  user_name : string;
  user_email : string;
  user_is_admin : bool
}.

(** Modelled from the spec: "Alert: id, title, message, severity,
    visibility_type, created_by, expiry_time, is_active"; the [app]
    package is missing. *)
Record alert := Alert {
  alert_id : Z;
  alert_title : string;
  alert_message : string;
  alert_severity : string;
  alert_visibility_type : string;
  alert_created_by : pyval;
  alert_expiry_time : string;
  alert_is_active : bool
}.

(** Modelled from the spec: users, alerts, and one delivery per alert and
    user that sees it, keyed by (alert id, user id); the [app] package is
    missing. *)
Record state := State {
  users : list user;
  alerts : list alert;
  deliveries : gmap (Z * Z) read_state
}.

(** Modelled from the spec: what it leaves open. [visible] is the
    visibility rule, [acknowledged] tells which delivery states count as
    acknowledged (reminders go "to users who have not acknowledged" an
    alert), [dumps] serialises a JSON body. *)
Class Deployment := {
  visible : alert -> user -> bool;
  acknowledged : read_state -> bool;
  dumps : pyval -> string;
  dumps_nonempty : forall v, dumps v <> EmptyString
}.

(** Modelled from the spec: the [is_active] flag of an alert set to [b];
    the [app] package is missing. *)
Definition set_active (b : bool) (a : alert) : alert :=
  Alert (alert_id a) (alert_title a) (alert_message a) (alert_severity a)
    (alert_visibility_type a) (alert_created_by a) (alert_expiry_time a) b.

(** Modelled from the spec: the alert an "{id}" in a path names; the [app]
    package is missing. *)
Definition find_alert (id : Z) (s : state) : option alert :=
  find (fun a => (alert_id a =? id)%Z) (alerts s).

(** Modelled from the spec: the [id] given to a created alert, one no
    alert has yet; the [app] package is missing. *)
Definition fresh_id (l : list alert) : Z :=
  (1 + fold_right Z.max 0 (map alert_id l))%Z.

(** Modelled from the spec: a textual field of a request body; the [app]
    package is missing. *)
Definition str_field (key : string) (d : list (string * pyval)) : option string :=
  match dict_lookup key d with
  | Some (VStr x) => Some x
  | _ => None
  end.

(** Modelled from the spec: "Create: accepts {title, message, severity,
    visibility_type, created_by, expiry_time}": the fields are valid when
    all six are present, the textual ones as strings. The new alert is
    active. The [app] package is missing. *)
Definition new_alert (id : Z) (body : option pyval) : option alert :=
  match body with
  | Some (VDict d) =>
      title ← str_field "title" d;
      message ← str_field "message" d;
      severity ← str_field "severity" d;
      visibility_type ← str_field "visibility_type" d;
      created_by ← dict_lookup "created_by" d;
      expiry_time ← str_field "expiry_time" d;
      Some (Alert id title message severity visibility_type created_by expiry_time true)
  | _ => None
  end.

(** Modelled from the spec: "Update: accepts partial field set (e.g.
    severity, message)"; [is_active] is not among the fields. The [app]
    package is missing. *)
Definition apply_update (d : list (string * pyval)) (a : alert) : alert :=
  Alert (alert_id a)
    (default (alert_title a) (str_field "title" d))
    (default (alert_message a) (str_field "message" d))
    (default (alert_severity a) (str_field "severity" d))
    (alert_visibility_type a) (alert_created_by a) (alert_expiry_time a)
    (alert_is_active a).

(** Modelled from the spec: a change [f] applied to alert [id], all else
    kept; the [app] package is missing. *)
Definition map_alert (id : Z) (f : alert -> alert) (s : state) : state :=
  State (users s)
    (map (fun a => if (alert_id a =? id)%Z then f a else a) (alerts s))
    (deliveries s).

Section Operations.
Context `{Deployment}.

(** Modelled from the spec: a delivery is "created when an alert becomes
    visible to a user", unread. The [app] package is missing. *)
Definition deliver (a : alert) (us : list user) (m : gmap (Z * Z) read_state)
  : gmap (Z * Z) read_state :=
  foldr (fun u acc => if visible a u then <[(alert_id a, user_id u) := Unread]> acc else acc)
    m us.

(** Modelled from the spec: alert creation ("created by admin"); the
    [app] package is missing. *)
Definition create (body : option pyval) (s : state) : option (state * alert) :=
  a ← new_alert (fresh_id (alerts s)) body;
  Some (State (users s) (alerts s ++ [a]) (deliver a (users s) (deliveries s)), a).

(** Modelled from the spec: "Update ... returns success/failure"; the
    [app] package is missing. *)
Definition update (id : Z) (body : option pyval) (s : state) : option state :=
  match find_alert id s, body with
  | Some _, Some (VDict d) => Some (map_alert id (apply_update d) s)
  | _, _ => None
  end.

(** Modelled from the spec: "Archive: transitions alert to inactive"
    ("archived (terminal, sets is_active=false)"); the [app] package is
    missing. *)
Definition archive (id : Z) (s : state) : option state :=
  match find_alert id s with
  | Some _ => Some (map_alert id (set_active false) s)
  | None => None
  end.

(** Modelled from the spec: "List: returns {alerts:[...]}, each with
    is_active flag; supports status filter (e.g. status=active)"; the
    [app] package is missing. *)
Definition list_alerts (active_only : bool) (s : state) : list alert :=
  if active_only then List.filter alert_is_active (alerts s)
  else alerts s.

(** Modelled from the spec: the users a reminder for alert [id] goes to,
    those with a delivery of it they "have not acknowledged"; the [app]
    package is missing. *)
Definition eligible_users (id : Z) (s : state) : list user :=
  List.filter (fun u =>
                 match deliveries s !! (id, user_id u) with
                 | Some st => negb (acknowledged st)
                 | None => false
                 end) (users s).

(** Modelled from the spec: "Trigger endpoint per alert id; returns
    {success, reminders_sent}. Must only act on active alerts"; [None]
    when [id] is not an active alert. The [app] package is missing. *)
Definition send_reminder (id : Z) (s : state) : option nat :=
  match find_alert id s with
  | Some a =>
      if alert_is_active a then Some (length (eligible_users id s)) else None
  | None => None
  end.

(** Modelled from the spec: "Mark read / unread / snooze: each accepts
    {user_id}; mutates per-user alert state"; [None] when the user has
    no delivery of the alert. The [app] package is missing. *)
Definition mark (id uid : Z) (st : read_state) (s : state) : option state :=
  match deliveries s !! (id, uid) with
  | Some _ => Some (State (users s) (alerts s) (<[(id, uid) := st]> (deliveries s)))
  | None => None
  end.

(** Modelled from the spec: "List visible alerts for a user", the alerts
    delivered to the user; the [app] package is missing. *)
Definition user_alerts (uid : Z) (s : state) : list alert :=
  List.filter (fun a =>
                 match deliveries s !! (alert_id a, uid) with
                 | Some _ => true
                 | None => false
                 end) (alerts s).
End Operations.

(** *** The endpoints of section 6 *)

(** Modelled from the spec: the endpoints of the table in section 6 that
    concern users, alerts, deliveries and reminders; the [app] package is
    missing. *)
Inductive route :=
| ListUsers
| ListAlerts (active_only : bool)
| CreateAlert
| UpdateAlert (id : Z)
| ArchiveAlert (id : Z)
| SendReminder (id : Z)
| UserAlerts (uid : Z)
| Mark (id : Z) (st : read_state)
| Unknown.

(** Modelled from the spec: the table of endpoints (method, path); a path
    is matched piece by piece, [{id}] against the value substituted. The
    [app] package is missing. *)
Definition route_of (m : http_method) (path : text) : route :=
  match m, path with
  | GET, [Lit p] =>
      if String.eqb p "/api/admin/users" then ListUsers
      else if String.eqb p "/api/admin/alerts" then ListAlerts false
      else if String.eqb p "/api/admin/alerts?status=active" then ListAlerts true
      else Unknown
  | GET, [Lit p; Str_ (VInt uid)] =>
      if String.eqb p "/api/user/alerts?user_id=" then UserAlerts uid else Unknown
  | POST, [Lit p] =>
      if String.eqb p "/api/admin/alerts" then CreateAlert else Unknown
  | PUT, [Lit p; Str_ (VInt id)] =>
      if String.eqb p "/api/admin/alerts/" then UpdateAlert id else Unknown
  | POST, [Lit p; Str_ (VInt id); Lit q] =>
      if String.eqb p "/api/admin/alerts/" then
        if String.eqb q "/archive" then ArchiveAlert id
        else if String.eqb q "/send-reminder" then SendReminder id
        else Unknown
      else if String.eqb p "/api/user/alerts/" then
        if String.eqb q "/read" then Mark id Read
        else if String.eqb q "/unread" then Mark id Unread
        else if String.eqb q "/snooze" then Mark id Snoozed
        else Unknown
      else Unknown
  | _, _ => Unknown
  end.

(** Modelled from the spec: a user as the listing shows it ("id, name,
    email, is_admin"); the [app] package is missing. *)
Definition user_json (u : user) : pyval :=
  VDict [("id", VInt (user_id u)); ("name", VStr (user_name u));
         ("email", VStr (user_email u)); ("is_admin", VBool (user_is_admin u))].

(** Modelled from the spec: an alert as a body shows it ("alert:{id,…}",
    "each with is_active flag"); the [app] package is missing. *)
Definition alert_json (a : alert) : pyval :=
  VDict [("id", VInt (alert_id a)); ("title", VStr (alert_title a));
         ("message", VStr (alert_message a)); ("severity", VStr (alert_severity a));
         ("visibility_type", VStr (alert_visibility_type a));
         ("created_by", alert_created_by a);
         ("expiry_time", VStr (alert_expiry_time a));
         ("is_active", VBool (alert_is_active a))].

(** Modelled from the spec: a body "{success, …}" of a request that
    succeeded; the [app] package is missing. *)
Definition succeeded (more : list (string * pyval)) : pyval :=
  VDict (("success", VBool true) :: more).

(** Modelled from the spec: the "{user_id}" a mark request carries; the
    [app] package is missing. *)
Definition user_id_of (body : option pyval) : option Z :=
  match body with
  | Some (VDict d) =>
      match dict_lookup "user_id" d with
      | Some (VInt uid) => Some uid
      | _ => None
      end
  | _ => None
  end.

Section Server.
Context `{Deployment}.

(** Modelled from the spec: a JSON answer with its status; the [app]
    package is missing. *)
Definition reply (code : Z) (body : pyval) : response :=
  Response code (dumps body) (dumps body) (inr body).

(** Modelled from the spec: failures are "reported as non-2xx/201
    statuses"; the [app] package is missing. *)
Definition failure (code : Z) : response :=
  reply code (VDict [("success", VBool false)]).

(** Modelled from the spec: the request/response contract of section 4
    over the operations above; the [app] package is missing. *)
Definition handle (r : request) (s : state) : state * response :=
  match req_url r with
  | Lit _ :: path =>
      match route_of (req_method r) path with
      | ListUsers =>
          (s, reply 200 (VDict [("users", VList (map user_json (users s)))]))
      | ListAlerts active_only =>
          (s, reply 200
                (VDict [("alerts", VList (map alert_json (list_alerts active_only s)))]))
      | CreateAlert =>
          match create (req_json r) s with
          | Some (s', a) => (s', reply 201 (succeeded [("alert", alert_json a)]))
          | None => (s, failure 400)
          end
      | UpdateAlert id =>
          match update id (req_json r) s with
          | Some s' => (s', reply 200 (succeeded []))
          | None => (s, failure 404)
          end
      | ArchiveAlert id =>
          match archive id s with
          | Some s' => (s', reply 200 (succeeded []))
          | None => (s, failure 404)
          end
      | SendReminder id =>
          match send_reminder id s with
          | Some n =>
              (s, reply 200 (succeeded [("reminders_sent", VInt (Z.of_nat n))]))
          | None => (s, failure 400)
          end
      | UserAlerts uid =>
          (s, reply 200 (VDict [("alerts", VList (map alert_json (user_alerts uid s)))]))
      | Mark id st =>
          match user_id_of (req_json r) with
          | Some uid =>
              match mark id uid st s with
              | Some s' => (s', reply 200 (succeeded []))
              | None => (s, failure 404)
              end
          | None => (s, failure 400)
          end
      | Unknown => (s, failure 404)
      end
  | _ => (s, failure 404)
  end.

(** Modelled from the spec: the platform after a sequence of requests;
    the [app] package is missing. *)
Definition run (rs : list request) (s : state) : state :=
  fold_left (fun acc r => fst (handle r acc)) rs s.

(** The harness talks to a platform that is up: every request is
    answered. *)
#[export] Instance requests : Harness.Requests state := {|
  Harness.send := fun r s => let '(s', resp) := handle r s in (s', inr resp)
|}.

(** The platform does not read the time stamp the harness sends, so one
    reading stands for the clock of the harness. *)
#[export] Instance clock : Harness.Clock state := {|
  Harness.datetime := Z;
  Harness.utcnow := fun s => (s, 0%Z);
  Harness.add_hours := fun t h => (t + h)%Z;
  Harness.isoformat := fun t => "2026-01-01T00:00:00"
|}.
End Server.
End Backend.

(** A script world for [run.py]: the application is its own outcome. *)
Module RunScript.
Record world := World {
  create_outcome : exn + unit;
  run_outcome : exn + unit;
  started : list (string * Z * bool)
}.

#[export] Instance flask : Run.Flask world := {|
  Run.flask_app := unit;
  Run.create_app := fun _ w => (w, create_outcome w);
  Run.app_run := fun _ host port debug w =>
    (World (create_outcome w) (run_outcome w) (started w ++ [(host, port, debug)]),
     run_outcome w)
|}.
End RunScript.

(** A scripted server for [test_system.py]: the exchanges answer in order
    from a list; when the list is exhausted the connection is refused. The
    world keeps the requests it received. *)
Module Script.
Record world := World {
  answers : list (exn + response);
  received : list request
}.

Definition refused : exn :=
  Exn RequestsConnectionError [Lit "Connection refused"].

#[export] Instance requests : Harness.Requests world := {|
  Harness.send := fun r w =>
    match answers w with
    | a :: rest => (World rest (received w ++ [r]), a)
    | [] => (World [] (received w ++ [r]), inl refused)
    end
|}.

#[export] Instance clock : Harness.Clock world := {|
  Harness.datetime := Z;
  Harness.utcnow := fun w => (w, 0%Z);
  Harness.add_hours := fun t h => (t + h)%Z;
  Harness.isoformat := fun t => "1970-01-02T00:00:00"
|}.
End Script.

(** * The built-ins on ASCII text *)

Module AsciiInstance.
Import AsciiBuiltins.

Lemma int_raises s e : int s = inl e -> exn_cls e = ValueError.
Proof.
  unfold int. destruct (signed _); intros Heq; inversion Heq. reflexivity.
Qed.

#[export] Instance builtins : Builtins := {|
  int_of_str := int;
  int_of_str_raises := int_raises;
  str_upper := upper;
  str_upper_ascii := fun s _ => eq_refl
|}.
End AsciiInstance.

(** * Reasoning about the effect monad *)

Section MonadFacts.
Context {W : Type}.
Implicit Types (w : W) (t : list event).

Lemma prepend_nil {A} (o : outcome W A) : prepend [] o = o.
Proof. destruct o; reflexivity. Qed.

Lemma prepend_prepend {A} t1 t2 (o : outcome W A) :
  prepend t1 (prepend t2 o) = prepend (t1 ++ t2) o.
Proof. unfold prepend; cbn. rewrite app_assoc. reflexivity. Qed.

Lemma prepend_Outcome {A} t w t' (r : exn + A) :
  prepend t (Outcome w t' r) = Outcome w (t ++ t') r.
Proof. reflexivity. Qed.

Lemma bind_ret {A B} (a : A) (k : A -> Py W B) w : bind (ret a) k w = k a w.
Proof. unfold bind, ret. apply prepend_nil. Qed.

Lemma bind_raise {A B} e (k : A -> Py W B) w :
  bind (raise e) k w = Outcome w [] (inl e).
Proof. reflexivity. Qed.

Lemma bind_emit {B} ev (k : unit -> Py W B) w :
  bind (emit ev) k w = prepend [ev] (k tt w).
Proof. reflexivity. Qed.

Lemma bind_print {B} txt (k : unit -> Py W B) w :
  bind (print txt) k w = prepend [Print txt] (k tt w).
Proof. reflexivity. Qed.

Lemma bind_liftE {A B} (r : exn + A) (k : A -> Py W B) w :
  bind (liftE r) k w =
  match r with
  | inl e => Outcome w [] (inl e)
  | inr a => k a w
  end.
Proof. unfold bind, liftE. destruct r; [reflexivity | apply prepend_nil]. Qed.

Lemma bind_extern {A B} (f : W -> W * (exn + A)) (k : A -> Py W B) w :
  bind (extern f) k w =
  match f w with
  | (w1, inl e) => Outcome w1 [] (inl e)
  | (w1, inr a) => k a w1
  end.
Proof.
  unfold bind, extern. destruct (f w) as [w1 [e | a]]; [reflexivity | apply prepend_nil].
Qed.

Lemma bind_bind {A B C} (m : Py W A) (k : A -> Py W B) (h : B -> Py W C) w :
  bind (bind m k) h w = bind m (fun a => bind (k a) h) w.
Proof.
  unfold bind. destruct (m w) as [w1 t1 [e | a]]; cbn; [reflexivity |].
  destruct (k a w1) as [w2 t2 [e | b]]; cbn; [reflexivity |].
  unfold prepend; cbn. rewrite app_assoc. reflexivity.
Qed.

Lemma bind_if {A B} (c : bool) (m1 m2 : Py W A) (k : A -> Py W B) w :
  bind (if c then m1 else m2) k w = if c then bind m1 k w else bind m2 k w.
Proof. destruct c; reflexivity. Qed.

Lemma try_except_eq {A} (body : Py W A) handler w :
  try_except body handler w =
  match body w with
  | Outcome w1 t1 (inl e) =>
      match handler e with
      | Some h => prepend t1 (h w1)
      | None => Outcome w1 t1 (inl e)
      end
  | o => o
  end.
Proof. reflexivity. Qed.

Lemma print_run txt w : print txt w = Outcome w [Print txt] (inr tt).
Proof. reflexivity. Qed.

Lemma ret_run {A} (a : A) w : ret a w = Outcome w [] (inr a).
Proof. reflexivity. Qed.

Lemma raise_run {A} e w : @raise W A e w = Outcome w [] (inl e).
Proof. reflexivity. Qed.

Lemma extern_run {A} (f : W -> W * (exn + A)) w :
  extern f w = let '(w1, r) := f w in Outcome w1 [] r.
Proof. reflexivity. Qed.
End MonadFacts.

Create Rewrite HintDb py.
#[global] Hint Rewrite @bind_bind @bind_ret @bind_raise @bind_emit @bind_print
  @bind_liftE @prepend_prepend @prepend_Outcome @print_run @ret_run @raise_run : py.

(** * Properties of run.py *)

Module RunFacts.
Import Run.

Definition config_name_of (env : gmap string string) : string :=
  str_or (getenv env "FLASK_ENV" "development").

Definition host_of (env : gmap string string) : string :=
  str_or (getenv env "HOST" "127.0.0.1").

(** What [main] prints before it starts the server. *)
Definition banner (config_name host : string) (port : Z) : list event :=
  [Print [Lit (nl ++ "🚀 Starting Alerting & Notification Platform")];
   Print [Lit "📍 Running on http://"; Str_ (VStr host); Lit ":"; Str_ (VInt port)];
   Print [Lit "🔧 Environment: "; Str_ (VStr config_name)];
   Print [Lit "🐛 Debug mode: "; Str_ (VBool (String.eqb config_name "development"))]]
  ++ (if String.eqb config_name "development" then
        [Print [Lit (nl ++ "📚 API Documentation:")];
         Print [Lit "   Admin APIs: http://"; Str_ (VStr host); Lit ":"; Str_ (VInt port);
                Lit "/api/admin/"];
         Print [Lit "   User APIs:  http://"; Str_ (VStr host); Lit ":"; Str_ (VInt port);
                Lit "/api/user/"];
         Print [Lit "   Analytics:  http://"; Str_ (VStr host); Lit ":"; Str_ (VInt port);
                Lit "/api/analytics/"];
         Print [Lit (nl ++ "💡 Sample admin user: admin@example.com")]]
      else [])
  ++ [Print [Lit (nl ++ str_repeat "=" 50)]].

Section Facts.
Context `{Builtins} {W : Type} `{Flask W}.

(** [main] fails before printing anything when the application cannot
    be created. *)
Lemma main_create_fails env w w1 e :
  create_app (config_name_of env) w = (w1, inl e) ->
  main env w = Outcome w1 [CreateApp (config_name_of env)] (inl e).
Proof.
  intros Hc. unfold main. cbv zeta. fold (config_name_of env).
  rewrite !bind_bind, bind_emit, bind_extern, Hc. reflexivity.
Qed.

(** [main] fails before printing anything when the port does not parse. *)
Lemma main_port_fails env w w1 a e :
  create_app (config_name_of env) w = (w1, inr a) ->
  int_ (getenv env "PORT" 5000%Z) = inl e ->
  main env w = Outcome w1 [CreateApp (config_name_of env)] (inl e).
Proof.
  intros Hc Hp. unfold main. cbv zeta. fold (config_name_of env).
  rewrite !bind_bind, bind_emit, bind_extern, Hc, bind_liftE, Hp. reflexivity.
Qed.

(** The trace and result of [main] once the configuration is read. *)
Lemma main_started env w w1 w2 a port r :
  create_app (config_name_of env) w = (w1, inr a) ->
  int_ (getenv env "PORT" 5000%Z) = inr port ->
  app_run a (host_of env) port (String.eqb (config_name_of env) "development") w1
    = (w2, r) ->
  main env w =
    Outcome w2
      (CreateApp (config_name_of env)
       :: banner (config_name_of env) (host_of env) port
       ++ AppRun (host_of env) port (String.eqb (config_name_of env) "development")
       :: match r with
          | inr _ => []
          | inl e =>
              if is_KeyboardInterrupt (exn_cls e) then [Print shutdown_message]
              else if is_Exception (exn_cls e) then [Print (error_message e)]
              else []
          end)
      (match r with
       | inr _ => inr tt
       | inl e =>
           if is_KeyboardInterrupt (exn_cls e) then inr tt
           else if is_Exception (exn_cls e) then inl (SystemExit_ 1)
           else inl e
       end).
Proof.
  intros Hc Hp Hr. unfold main. cbv zeta.
  fold (config_name_of env). fold (host_of env).
  rewrite !bind_bind, bind_emit, bind_extern, Hc, bind_liftE, Hp.
  unfold banner.
  destruct (String.eqb (config_name_of env) "development");
    autorewrite with py;
    rewrite try_except_eq, bind_emit, extern_run, Hr;
    (destruct r as [e | []]; [| reflexivity]);
    cbn [prepend world_of trace_of result_of app];
    destruct (is_KeyboardInterrupt (exn_cls e)); try reflexivity;
    destruct (is_Exception (exn_cls e)); reflexivity.
Qed.


(** C1. Around [app.run], [main] has two handlers. On
    [KeyboardInterrupt] it prints the shutdown message and returns (it
    does not exit with code 1). On any exception deriving from
    [Exception] it prints the error message and raises [SystemExit(1)].
    An exception of neither class is not caught. *)
Theorem main_catches_two_classes env w w1 w2 a port e :
  create_app (config_name_of env) w = (w1, inr a) ->
  int_ (getenv env "PORT" 5000%Z) = inr port ->
  app_run a (host_of env) port (String.eqb (config_name_of env) "development") w1
    = (w2, inl e) ->
  let o := main env w in
  let started :=
    CreateApp (config_name_of env)
    :: banner (config_name_of env) (host_of env) port
    ++ [AppRun (host_of env) port (String.eqb (config_name_of env) "development")] in
  (exn_cls e = KeyboardInterrupt ->
     trace_of o = started ++ [Print shutdown_message]
     /\ result_of o = inr tt
     /\ result_of o <> inl (SystemExit_ 1))
  /\ (is_Exception (exn_cls e) = true ->
        trace_of o = started ++ [Print (error_message e)]
        /\ result_of o = inl (SystemExit_ 1))
  /\ (exn_cls e <> KeyboardInterrupt -> is_Exception (exn_cls e) = false ->
        trace_of o = started /\ result_of o = inl e).
Proof.
  intros Hc Hp Hr o started. subst o started.
  rewrite (main_started _ _ _ _ _ _ _ Hc Hp Hr). cbn [trace_of result_of].
  rewrite <- !app_comm_cons, <- !app_assoc. cbn [app].
  split; [intros Hk | split; [intros Hx | intros Hnk Hnx]].
  - rewrite Hk. cbn. repeat split. discriminate.
  - destruct (exn_cls e); try discriminate; split; reflexivity.
  - destruct (exn_cls e); try discriminate; try congruence; split; reflexivity.
Qed.


(** C10. The handlers of [main] guard [app.run] only. When [PORT] holds
    a string that [int] rejects, the [ValueError] is raised before the
    [try] block and leaves [main]: nothing is printed, the server is
    not started, and the result is this error, not [SystemExit(1)]. *)
Theorem main_port_error_escapes env w w1 a s e :
  create_app (config_name_of env) w = (w1, inr a) ->
  env !! "PORT" = Some s ->
  int_of_str s = inl e ->
  let o := main env w in
  result_of o = inl e
  /\ exn_cls e = ValueError
  /\ result_of o <> inl (SystemExit_ 1)
  /\ world_of o = w1
  /\ (forall t, ~ In (Print t) (trace_of o))
  /\ (forall host port debug, ~ In (AppRun host port debug) (trace_of o)).
Proof.
  intros Hc Hs He o.
  assert (Hp : int_ (getenv env "PORT" 5000%Z) = inl e).
  { unfold int_, getenv. rewrite Hs. exact He. }
  subst o. rewrite (main_port_fails _ _ _ _ _ Hc Hp). cbn.
  pose proof (int_of_str_raises _ _ He) as Hcls.
  repeat split; try assumption.
  - intros Heq. injection Heq as ->. discriminate.
  - intros t [Hin | []]. discriminate.
  - intros host port debug [Hin | []]. discriminate.
Qed.
End Facts.

Import AsciiBuiltins AsciiInstance RunScript.

(** A production environment on port 8080 whose server is interrupted. *)
Definition env_8080 : gmap string string :=
  <["FLASK_ENV" := "production"]> (<["PORT" := "8080"]> ∅).

Definition interrupted : world :=
  World (inr tt) (inl (Exn KeyboardInterrupt [])) [].

Lemma main_catches_two_classes_witness :
  exn_cls (Exn KeyboardInterrupt []) = KeyboardInterrupt
  /\ result_of (main env_8080 interrupted) = inr tt
  /\ started (world_of (main env_8080 interrupted)) = [("127.0.0.1", 8080%Z, false)].
Proof.
  split; [reflexivity |].
  split; [| vm_compute; reflexivity].
  refine (proj1 (proj2 (proj1
    (main_catches_two_classes env_8080 interrupted interrupted
       (World (inr tt) (inl (Exn KeyboardInterrupt [])) [("127.0.0.1", 8080%Z, false)])
       tt 8080%Z (Exn KeyboardInterrupt []) _ _ _) _))).
  - reflexivity.
  - vm_compute. reflexivity.
  - vm_compute. reflexivity.
  - reflexivity.
Defined.


Definition env_bad_port : gmap string string := <["PORT" := "http"]> ∅.

Lemma main_port_error_escapes_witness :
  env_bad_port !! "PORT" = Some "http"
  /\ int "http" = inl (invalid_literal "http")
  /\ result_of (main env_bad_port interrupted) = inl (invalid_literal "http")
  /\ started (world_of (main env_bad_port interrupted)) = [].
Proof.
  split; [reflexivity |]. split; [reflexivity |].
  pose proof (main_port_error_escapes env_bad_port interrupted interrupted tt "http"
                (invalid_literal "http") eq_refl eq_refl eq_refl) as (Hr & _ & _ & Hw & _).
  split; [exact Hr |]. cbv zeta in Hw. rewrite Hw. reflexivity.
Defined.
End RunFacts.

(** * Properties of test_api_endpoint *)

Module EndpointFacts.
Import PyOps Harness.

(** The requests among the events of a trace. *)
Fixpoint requests_in (t : list event) : list request :=
  match t with
  | [] => []
  | Http r :: rest => r :: requests_in rest
  | _ :: rest => requests_in rest
  end.

(** The printed lines among the events of a trace. *)
Fixpoint printed (t : list event) : list text :=
  match t with
  | [] => []
  | Print l :: rest => l :: printed rest
  | _ :: rest => printed rest
  end.

Lemma printed_app t t' : printed (t ++ t') = printed t ++ printed t'.
Proof. induction t as [| [] t IH]; cbn; congruence. Qed.

Lemma requests_in_app t t' : requests_in (t ++ t') = requests_in t ++ requests_in t'.
Proof. induction t as [| [] t IH]; cbn; congruence. Qed.

Section Facts.
Context `{Builtins} {W : Type} `{Requests W} `{Clock W}.

(** The request a call issues, if its method is supported. *)
Definition request_of (method : string) (endpoint : text) (data : option pyval)
  : option request :=
  let url := Lit BASE_URL :: endpoint in
  if String.eqb (str_upper method) "GET" then Some (Request GET url None [])
  else if String.eqb (str_upper method) "POST" then Some (Request POST url data json_headers)
  else if String.eqb (str_upper method) "PUT" then Some (Request PUT url data json_headers)
  else None.

(** What the two [except] clauses print and return for [e]. *)
Definition handled (method : string) (endpoint : text) (e : exn)
  : list event * (exn + pyval) :=
  if is_ConnectionError (exn_cls e) then
    ([Print (Lit "❌ Connection failed to " :: Lit BASE_URL :: endpoint);
      Print [Lit "   Make sure the server is running: python run.py"]],
     inr VNone)
  else if is_Exception (exn_cls e) then
    ([Print (error_line method endpoint e)], inr VNone)
  else ([], inl e).

(** What is printed about a response before its body is decoded. *)
Definition reported (method : string) (endpoint : text) (expected_status : Z)
  (r : response) : list event :=
  Print (status_line method endpoint expected_status r)
  :: (if negb (status_code r =? expected_status)%Z then
        [Print (expected_line expected_status r); Print (response_line r)]
      else []).

(** [response.json() if response.content else {}] *)
Definition body_of (r : response) : exn + pyval :=
  match resp_content r with
  | String _ _ => resp_json r
  | EmptyString => inr (VDict [])
  end.

Lemma unsupported_run method endpoint data expected_status w :
  request_of method endpoint data = None ->
  test_api_endpoint method endpoint data expected_status w =
  Outcome w
    [Call method endpoint data expected_status;
     Print (error_line method endpoint (unsupported_method method))]
    (inr VNone).
Proof.
  unfold request_of, test_api_endpoint. cbv zeta. intros Hreq.
  rewrite bind_emit, try_except_eq.
  destruct (String.eqb (str_upper method) "GET"); [discriminate |].
  destruct (String.eqb (str_upper method) "POST"); [discriminate |].
  destruct (String.eqb (str_upper method) "PUT"); [discriminate |].
  rewrite bind_raise. reflexivity.
Qed.

Lemma http_bind {B} req (k : response -> Py W B) w :
  bind (http req) k w =
  prepend [Http req]
    (match send req w with
     | (w1, inl e) => Outcome w1 [] (inl e)
     | (w1, inr r) => k r w1
     end).
Proof. unfold http. rewrite bind_bind, bind_emit, bind_extern. reflexivity. Qed.

Lemma raised_run method endpoint data expected_status w req w1 e :
  request_of method endpoint data = Some req ->
  send req w = (w1, inl e) ->
  test_api_endpoint method endpoint data expected_status w =
  Outcome w1
    (Call method endpoint data expected_status :: Http req
     :: fst (handled method endpoint e))
    (snd (handled method endpoint e)).
Proof.
  unfold request_of, test_api_endpoint, handled. cbv zeta. intros Hreq Hsend.
  rewrite bind_emit, try_except_eq.
  destruct (String.eqb (str_upper method) "GET");
    [| destruct (String.eqb (str_upper method) "POST");
       [| destruct (String.eqb (str_upper method) "PUT"); [| discriminate]]];
    injection Hreq as <-; rewrite http_bind, Hsend;
    cbn [prepend world_of trace_of result_of app];
    destruct (is_ConnectionError (exn_cls e)); try reflexivity;
    destruct (is_Exception (exn_cls e)); reflexivity.
Qed.

Lemma answered_run method endpoint data expected_status w req w1 r :
  request_of method endpoint data = Some req ->
  send req w = (w1, inr r) ->
  test_api_endpoint method endpoint data expected_status w =
  Outcome w1
    (Call method endpoint data expected_status :: Http req
     :: reported method endpoint expected_status r
     ++ match body_of r with
        | inl e => fst (handled method endpoint e)
        | inr _ => []
        end)
    (match body_of r with
     | inl e => snd (handled method endpoint e)
     | inr v => inr v
     end).
Proof.
  unfold request_of, test_api_endpoint, handled, reported, body_of. cbv zeta.
  intros Hreq Hsend.
  rewrite bind_emit, try_except_eq.
  destruct (String.eqb (str_upper method) "GET");
    [| destruct (String.eqb (str_upper method) "POST");
       [| destruct (String.eqb (str_upper method) "PUT"); [| discriminate]]];
    injection Hreq as <-; rewrite http_bind, Hsend;
    rewrite bind_print, bind_if;
    (destruct (negb (status_code r =? expected_status)%Z);
     autorewrite with py;
     (destruct (resp_content r) as [| c rest];
      [reflexivity |];
      unfold liftE;
      destruct (resp_json r) as [e | v]; [| reflexivity];
      cbn [prepend world_of trace_of result_of app];
      destruct (is_ConnectionError (exn_cls e)); try reflexivity;
      destruct (is_Exception (exn_cls e)); reflexivity)).
Qed.

(** C3, as the code has it. When the request a call issues raises a
    connection error or any other exception that is an instance of
    [Exception], [test_api_endpoint] prints the failure, returns [None],
    and has sent exactly that one request: nothing is retried and nothing
    propagates. *)
Theorem request_failure_reported method endpoint data expected_status w req w1 e :
  request_of method endpoint data = Some req ->
  send req w = (w1, inl e) ->
  is_Exception (exn_cls e) = true ->
  let o := test_api_endpoint method endpoint data expected_status w in
  result_of o = inr VNone
  /\ world_of o = w1
  /\ requests_in (trace_of o) = [req]
  /\ printed (trace_of o) =
       if is_ConnectionError (exn_cls e) then
         [Lit "❌ Connection failed to " :: Lit BASE_URL :: endpoint;
          [Lit "   Make sure the server is running: python run.py"]]
       else [error_line method endpoint e].
Proof.
  intros Hreq Hsend Hexn o. subst o.
  rewrite (raised_run _ _ _ _ _ _ _ _ Hreq Hsend). unfold handled.
  rewrite Hexn. destruct (is_ConnectionError (exn_cls e)); repeat split.
Qed.

(** C4, as the code has it. After a response whose status differs from
    the expected one, [test_api_endpoint] prints the status line marked
    as failed, the expected and actual status and the first 200
    characters of the body, and sends nothing more. It then returns
    [{}] for an empty body and the decoded value when [json()] succeeds;
    when [json()] raises, the generic handler prints the error and the
    call returns [None]. *)
Theorem status_mismatch_reported method endpoint data expected_status w req w1 r :
  request_of method endpoint data = Some req ->
  send req w = (w1, inr r) ->
  status_code r <> expected_status ->
  let o := test_api_endpoint method endpoint data expected_status w in
  let mismatch :=
    [status_line method endpoint expected_status r;
     expected_line expected_status r; response_line r] in
  world_of o = w1
  /\ requests_in (trace_of o) = [req]
  /\ hd_error (status_line method endpoint expected_status r) = Some (Lit "❌")
  /\ match body_of r with
     | inr v => result_of o = inr v /\ printed (trace_of o) = mismatch
     | inl e =>
         is_Exception (exn_cls e) = true ->
         is_ConnectionError (exn_cls e) = false ->
         result_of o = inr VNone
         /\ printed (trace_of o) = mismatch ++ [error_line method endpoint e]
     end.
Proof.
  intros Hreq Hsend Hne o mismatch. subst o mismatch.
  rewrite (answered_run _ _ _ _ _ _ _ _ Hreq Hsend). unfold reported, status_line.
  apply Z.eqb_neq in Hne. rewrite Hne. cbn [negb].
  destruct (body_of r) as [e | v]; cbn [world_of trace_of result_of].
  - unfold handled.
    destruct (is_ConnectionError (exn_cls e)), (is_Exception (exn_cls e));
      (split; [reflexivity |]); (split; [reflexivity |]); (split; [reflexivity |]);
      intros; try discriminate; split; reflexivity.
  - repeat split.
Qed.

(** C9. A method whose upper-case form is none of [GET], [POST], [PUT]
    makes [test_api_endpoint] return [None]: the [ValueError] is raised
    inside the [try] block and caught by the generic handler, no request
    is sent and nothing propagates. Methods are compared after
    [upper()], so two spellings with the same upper-case form send the
    same request and give the same result. *)
Theorem unsupported_method_returns_None method endpoint data expected_status w :
  (str_upper method <> "GET" ->
   str_upper method <> "POST" ->
   str_upper method <> "PUT" ->
   let o := test_api_endpoint method endpoint data expected_status w in
   result_of o = inr VNone
   /\ world_of o = w
   /\ requests_in (trace_of o) = []
   /\ printed (trace_of o)
      = [error_line method endpoint (unsupported_method method)])
  /\ (forall method',
        str_upper method' = str_upper method ->
        let o := test_api_endpoint method endpoint data expected_status w in
        let o' := test_api_endpoint method' endpoint data expected_status w in
        result_of o' = result_of o
        /\ world_of o' = world_of o
        /\ requests_in (trace_of o') = requests_in (trace_of o)
        /\ length (printed (trace_of o')) = length (printed (trace_of o))).
Proof.
  split.
  - intros Hg Hp Hu o. subst o.
    rewrite unsupported_run; [repeat split |].
    unfold request_of. cbv zeta.
    apply String.eqb_neq in Hg, Hp, Hu. rewrite Hg, Hp, Hu. reflexivity.
  - intros method' Hup o o'. subst o o'.
    assert (Hreq : request_of method' endpoint data = request_of method endpoint data).
    { unfold request_of. rewrite Hup. reflexivity. }
    destruct (request_of method endpoint data) as [req |] eqn:Hr.
    + destruct (send req w) as [w1 [e | r]] eqn:Hsend.
      * rewrite (raised_run _ _ _ _ _ _ _ _ Hreq Hsend),
          (raised_run _ _ _ _ _ _ _ _ Hr Hsend).
        unfold handled.
        destruct (is_ConnectionError (exn_cls e)), (is_Exception (exn_cls e));
          repeat split.
      * rewrite (answered_run _ _ _ _ _ _ _ _ Hreq Hsend),
          (answered_run _ _ _ _ _ _ _ _ Hr Hsend).
        unfold handled, reported.
        destruct (body_of r) as [e | v];
          [destruct (is_ConnectionError (exn_cls e)), (is_Exception (exn_cls e)) |];
          destruct (negb (status_code r =? expected_status)%Z); repeat split.
    + rewrite (unsupported_run _ _ _ _ _ Hreq), (unsupported_run _ _ _ _ _ Hr).
      repeat split.
Qed.
End Facts.

Import AsciiBuiltins AsciiInstance Script.

(** The page a Flask server answers for a route it does not know. *)
Definition html_404 : response :=
  Response 404
    "<!doctype html><title>404 Not Found</title>"
    "<!doctype html><title>404 Not Found</title>"
    (inl (Exn JSONDecodeError [Lit "Expecting value: line 1 column 1 (char 0)"])).

Definition json_404 : response :=
  Response 404 "{}" "{}" (inr (VDict [])).

Lemma request_failure_reported_witness :
  let o := test_api_endpoint "GET" [Lit "/api/admin/users"] None 200 (World [] []) in
  result_of o = inr VNone
  /\ length (requests_in (trace_of o)) = 1.
Proof.
  pose proof (request_failure_reported "GET" [Lit "/api/admin/users"] None 200
                (World [] []) _ _ refused eq_refl eq_refl eq_refl) as (Hr & _ & Hq & _).
  cbv zeta in *. rewrite Hr, Hq. split; reflexivity.
Defined.

Lemma status_mismatch_reported_witness :
  let o := test_api_endpoint "GET" [Lit "/api/admin/users"] None 200
             (World [inr json_404] []) in
  status_code json_404 <> 200%Z
  /\ result_of o = inr (VDict []).
Proof.
  assert (Hne : status_code json_404 <> 200%Z) by (cbn; lia).
  split; [exact Hne |].
  exact (proj1 (proj2 (proj2 (proj2
    (status_mismatch_reported "GET" [Lit "/api/admin/users"] None 200
       (World [inr json_404] []) _ _ json_404 eq_refl eq_refl Hne))))).
Defined.

(** The user interrupts the request. *)
Definition ctrl_c : exn := Exn KeyboardInterrupt [].

(** C3 as stated fails: a request interrupted from the keyboard raises
    [KeyboardInterrupt], which neither [except] clause matches; the call
    prints nothing about it and the exception reaches the caller. *)
Lemma request_failure_counterexample :
  let w := World [inl ctrl_c] [] in
  let o := test_api_endpoint "GET" [Lit "/api/admin/users"] None 200 w in
  (send (Request GET [Lit BASE_URL; Lit "/api/admin/users"] None []) w
   = (World [] [Request GET [Lit BASE_URL; Lit "/api/admin/users"] None []], inl ctrl_c)
   /\ result_of o = inl ctrl_c
   /\ printed (trace_of o) = [])
  /\ ~ (forall method endpoint data expected_status (w w1 : world) req e,
          request_of method endpoint data = Some req ->
          send req w = (w1, inl e) ->
          result_of (test_api_endpoint method endpoint data expected_status w)
          = inr VNone).
Proof.
  cbv zeta. split.
  - split; [reflexivity |]. split; reflexivity.
  - intros Hall.
    pose proof (Hall "GET" [Lit "/api/admin/users"] None 200%Z (World [inl ctrl_c] [])
                  _ _ ctrl_c eq_refl eq_refl) as Hnone.
    discriminate Hnone.
Qed.

(** C4 as stated fails: a mismatching response whose body is not JSON
    makes the call return [None], not a decoded body. *)
Lemma status_mismatch_body_counterexample :
  let w := World [inr html_404] [] in
  let o := test_api_endpoint "GET" [Lit "/api/missing"] None 200 w in
  (status_code html_404 <> 200%Z
   /\ body_of html_404
      = inl (Exn JSONDecodeError [Lit "Expecting value: line 1 column 1 (char 0)"])
   /\ result_of o = inr VNone)
  /\ ~ (forall method endpoint data expected_status (w w1 : world) req r,
          request_of method endpoint data = Some req ->
          send req w = (w1, inr r) ->
          status_code r <> expected_status ->
          exists body,
            body_of r = inr body
            /\ result_of (test_api_endpoint method endpoint data expected_status w)
               = inr body).
Proof.
  cbv zeta. split.
  - split; [cbn; lia |]. split; reflexivity.
  - intros Hall.
    destruct (Hall "GET" [Lit "/api/missing"] None 200%Z (World [inr html_404] [])
                _ _ html_404 eq_refl eq_refl ltac:(cbn; lia)) as (body & Hbody & _).
    discriminate Hbody.
Qed.

Lemma unsupported_method_returns_None_witness :
  let w := World [inr json_404] [] in
  result_of (test_api_endpoint "DELETE" [Lit "/api/admin/alerts/1"] None 200 w) = inr VNone
  /\ result_of (test_api_endpoint "get" [Lit "/api/admin/alerts"] None 200 w)
     = result_of (test_api_endpoint "GET" [Lit "/api/admin/alerts"] None 200 w).
Proof.
  cbv zeta. split.
  - refine (proj1 (proj1 (unsupported_method_returns_None "DELETE" _ _ _ _) _ _ _));
      cbn; discriminate.
  - exact (proj1 (proj2 (unsupported_method_returns_None "GET" _ _ _ _) "get" eq_refl)).
Defined.
End EndpointFacts.

(** * The harness against the platform *)

Module PlatformFacts.
Import PyOps Harness Backend EndpointFacts.

Section Monad.
Context {W : Type}.

Lemma bind_ok {A B} (m : Py W A) (k : A -> Py W B) w w1 t a :
  m w = Outcome w1 t (inr a) -> bind m k w = prepend t (k a w1).
Proof. intros Hm. unfold bind. rewrite Hm. reflexivity. Qed.

End Monad.

Section Methods.
Context `{Builtins}.

Lemma request_of_GET endpoint data :
  request_of "GET" endpoint data = Some (Request GET (Lit BASE_URL :: endpoint) None []).
Proof. unfold request_of. rewrite str_upper_ascii by reflexivity. reflexivity. Qed.

Lemma request_of_POST endpoint data :
  request_of "POST" endpoint data
  = Some (Request POST (Lit BASE_URL :: endpoint) data json_headers).
Proof. unfold request_of. rewrite str_upper_ascii by reflexivity. reflexivity. Qed.

Lemma request_of_PUT endpoint data :
  request_of "PUT" endpoint data
  = Some (Request PUT (Lit BASE_URL :: endpoint) data json_headers).
Proof. unfold request_of. rewrite str_upper_ascii by reflexivity. reflexivity. Qed.
End Methods.

Section Reminder.
Context `{Builtins} {W : Type} `{Requests W} `{Clock W}.

(** The success path of [test_reminder_system]. *)
Lemma reminder_success_path w w1 w2 t1 t2 listing active first alert_id d v :
  test_api_endpoint "GET" [Lit "/api/admin/alerts?status=active"] None default_status w
    = Outcome w1 t1 (inr listing) ->
  and_then listing (contains "alerts" listing) = inr true ->
  getitem listing "alerts" = inr active ->
  truthy active = true ->
  getitem0 active = inr first ->
  getitem first "id" = inr alert_id ->
  test_api_endpoint "POST"
    [Lit "/api/admin/alerts/"; Str_ alert_id; Lit "/send-reminder"] None default_status w1
    = Outcome w2 t2 (inr (VDict d)) ->
  dict_lookup "success" d = Some v ->
  truthy v = true ->
  test_reminder_system w =
  Outcome w2
    (Print [Lit (nl ++ "⏰ Testing Reminder System...")] :: t1 ++ t2
     ++ [Print [Lit "   ✅ Successfully triggered reminder for alert "; Str_ alert_id];
         Print [Lit "   Sent "; Str_ (default (VInt 0) (dict_lookup "reminders_sent" d));
                Lit " reminders"]])
    (inr tt).
Proof.
  intros Hlist Hc Halerts Htruthy Hfirst Hid Hpost Hsucc Hv.
  unfold test_reminder_system.
  rewrite bind_print, (bind_ok _ _ _ _ _ _ Hlist), bind_liftE, Hc.
  rewrite bind_liftE, Halerts, Htruthy, bind_liftE, Hfirst, bind_liftE, Hid.
  rewrite (bind_ok _ _ _ _ _ _ Hpost), bind_liftE.
  assert (Hok : and_then (VDict d) (emap truthy (get (VDict d) "success" VNone)) = inr true).
  { unfold and_then, get. rewrite Hsucc. cbn. rewrite Hv.
    destruct d; [discriminate | reflexivity]. }
  rewrite Hok, bind_print, bind_liftE. unfold get.
  rewrite print_run, !prepend_prepend, prepend_Outcome.
  f_equal. rewrite <- !app_assoc. cbn.
  destruct (dict_lookup "reminders_sent" d); reflexivity.
Qed.
End Reminder.

(** Alert identifiers are distinct. *)
Definition wf (s : state) : Prop := NoDup (map alert_id (alerts s)).

Lemma find_alert_In id s a : find_alert id s = Some a -> In a (alerts s) /\ alert_id a = id.
Proof.
  unfold find_alert. intros Hf. apply find_some in Hf as [Hin Heq].
  split; [exact Hin | lia].
Qed.

Lemma find_alert_unique s a :
  wf s -> In a (alerts s) -> find_alert (alert_id a) s = Some a.
Proof.
  unfold wf, find_alert. induction (alerts s) as [| b l IH]; cbn; [tauto |].
  intros Hnd [-> | Hin].
  - rewrite Z.eqb_refl. reflexivity.
  - apply NoDup_cons in Hnd as [Hnotin Hnd].
    destruct (alert_id b =? alert_id a)%Z eqn:Heq; [| auto].
    apply Z.eqb_eq in Heq. exfalso. apply Hnotin. rewrite Heq.
    apply list_elem_of_In. apply in_map. exact Hin.
Qed.

Section Platform.
Context `{Builtins} `{Deployment}.

Lemma body_of_reply code body : body_of (reply code body) = inr body.
Proof.
  unfold body_of, reply. cbn. destruct (dumps body) eqn:Hd; [| reflexivity].
  exfalso. exact (dumps_nonempty _ Hd).
Qed.

(** A call of the harness that the platform answers. *)
Lemma platform_call method endpoint data expected_status s req s' code body :
  request_of method endpoint data = Some req ->
  handle req s = (s', reply code body) ->
  test_api_endpoint method endpoint data expected_status s =
  Outcome s'
    (Call method endpoint data expected_status :: Http req
     :: reported method endpoint expected_status (reply code body))
    (inr body).
Proof.
  intros Hreq Hh.
  assert (Hsend : send req s = (s', inr (reply code body))).
  { cbn. rewrite Hh. reflexivity. }
  rewrite (answered_run _ _ _ _ _ _ _ _ Hreq Hsend), body_of_reply, app_nil_r.
  reflexivity.
Qed.

Definition reminder_request (id : pyval) : request :=
  Request POST [Lit BASE_URL; Lit "/api/admin/alerts/"; Str_ id; Lit "/send-reminder"]
    None json_headers.

Lemma handle_send_reminder id s :
  handle (reminder_request (VInt id)) s =
  match send_reminder id s with
  | Some n => (s, reply 200 (succeeded [("reminders_sent", VInt (Z.of_nat n))]))
  | None => (s, failure 400)
  end.
Proof. reflexivity. Qed.

Lemma handle_list_active s :
  handle (Request GET [Lit BASE_URL; Lit "/api/admin/alerts?status=active"] None []) s
  = (s, reply 200 (VDict [("alerts", VList (map alert_json (list_alerts true s)))])).
Proof. reflexivity. Qed.
End Platform.


(** ** Archived alerts *)

(** Alert [id] exists and every alert of that identifier is inactive. *)
Definition archived (id : Z) (s : state) : Prop :=
  In id (map alert_id (alerts s))
  /\ forall a, In a (alerts s) -> alert_id a = id -> alert_is_active a = false.

Lemma fresh_id_gt l a : In a l -> (alert_id a < fresh_id l)%Z.
Proof.
  unfold fresh_id. induction l as [| b l IH]; cbn; [tauto |].
  intros [-> | Hin]; [lia |]. specialize (IH Hin). lia.
Qed.

Lemma map_alert_ids id f s :
  (forall a, alert_id (f a) = alert_id a) ->
  map alert_id (alerts (map_alert id f s)) = map alert_id (alerts s).
Proof.
  intros Hf. unfold map_alert. cbn. rewrite map_map. apply map_ext.
  intros a. destruct (alert_id a =? id)%Z; [apply Hf | reflexivity].
Qed.

Lemma archived_map_alert id id' f s :
  (forall a, alert_id (f a) = alert_id a) ->
  (forall a, alert_is_active a = false -> alert_is_active (f a) = false) ->
  archived id s -> archived id (map_alert id' f s).
Proof.
  intros Hid Hact [Hknown Hoff]. split.
  - rewrite map_alert_ids by exact Hid. exact Hknown.
  - intros a Hin Ha. unfold map_alert in Hin. cbn in Hin.
    apply in_map_iff in Hin as (b & Hb & Hin).
    destruct (alert_id b =? id')%Z; subst a.
    + apply Hact. apply Hoff; [exact Hin |]. rewrite <- Hid. exact Ha.
    + apply Hoff; assumption.
Qed.

Section Archive.
Context `{Deployment}.

Lemma archive_archived id s s' : archive id s = Some s' -> archived id s'.
Proof.
  unfold archive. destruct (find_alert id s) as [a |] eqn:Hfind; [| discriminate].
  intros [= <-]. apply find_alert_In in Hfind as [Hin Hid]. split.
  - rewrite map_alert_ids by reflexivity. rewrite <- Hid. apply in_map. exact Hin.
  - intros b Hb Hbid. unfold map_alert in Hb. cbn in Hb.
    apply in_map_iff in Hb as (c & Hc & Hcin).
    destruct (alert_id c =? id)%Z eqn:Heq; subst b; [reflexivity |].
    apply Z.eqb_neq in Heq. cbn in Hbid. contradiction.
Qed.

Lemma create_archived id body s s' a :
  create body s = Some (s', a) -> archived id s -> archived id s'.
Proof.
  unfold create. destruct (new_alert (fresh_id (alerts s)) body) as [b |] eqn:Hnew;
    [| discriminate].
  cbn. intros [= <- <-] [Hknown Hoff]. split; cbn.
  - rewrite map_app. apply in_or_app. left. exact Hknown.
  - intros c [Hc | [-> | []]]%in_app_iff Hcid; [apply Hoff; assumption |].
    exfalso. apply in_map_iff in Hknown as (d & Hd & Hdin).
    pose proof (fresh_id_gt _ _ Hdin) as Hlt.
    assert (Hb : alert_id c = fresh_id (alerts s)).
    { unfold new_alert in Hnew. destruct body as [[| | | | | | dict] |]; try discriminate.
      repeat match type of Hnew with
             | context [mbind _ ?o] => destruct o; cbn in Hnew; try discriminate
             end.
      injection Hnew as <-. reflexivity. }
    lia.
Qed.

(** Every request leaves an archived alert archived. *)
Lemma handle_archived id r s : archived id s -> archived id (fst (handle r s)).
Proof.
  intros Harch. unfold handle.
  destruct (req_url r) as [| [base | |] path]; try exact Harch.
  destruct (route_of (req_method r) path) as [| only | | i | i | i | uid | i st |];
    cbn; try exact Harch.
  - destruct (create (req_json r) s) as [[s' a] |] eqn:Hc; [| exact Harch].
    exact (create_archived _ _ _ _ _ Hc Harch).
  - unfold update. destruct (find_alert i s); [| exact Harch].
    destruct (req_json r) as [[| | | | | | d] |]; try exact Harch.
    apply archived_map_alert; [reflexivity | auto | exact Harch].
  - unfold archive. destruct (find_alert i s); [| exact Harch].
    apply archived_map_alert; [reflexivity | auto | exact Harch].
  - destruct (send_reminder i s); exact Harch.
  - destruct (user_id_of (req_json r)) as [uid |]; [| exact Harch].
    unfold mark. destruct (deliveries s !! (i, uid)); exact Harch.
Qed.

Lemma run_archived id rs s : archived id s -> archived id (run rs s).
Proof.
  unfold run. revert s. induction rs as [| r rs IH]; cbn; [tauto |].
  intros s Harch. apply IH. apply handle_archived. exact Harch.
Qed.

Lemma archived_not_listed id s a :
  archived id s -> In a (list_alerts true s) -> alert_id a <> id.
Proof.
  intros [_ Hoff] Hin Hid. apply filter_In in Hin as [Hin Hact].
  rewrite (Hoff _ Hin Hid) in Hact. discriminate.
Qed.

Lemma archived_no_reminder id s : archived id s -> send_reminder id s = None.
Proof.
  intros [_ Hoff]. unfold send_reminder.
  destruct (find_alert id s) as [a |] eqn:Hfind; [| reflexivity].
  apply find_alert_In in Hfind as [Hin Hid]. rewrite (Hoff _ Hin Hid). reflexivity.
Qed.
End Archive.


Section ReminderOnPlatform.
Context `{Builtins} `{Deployment}.

Definition list_active_request : request :=
  Request GET [Lit BASE_URL; Lit "/api/admin/alerts?status=active"] None [].

(** [test_reminder_system] asks for the active alerts and triggers a
    reminder for the first of them only. *)
Lemma reminder_requests s :
  let o := test_reminder_system s in
  result_of o = inr tt
  /\ world_of o = s
  /\ requests_in (trace_of o)
     = list_active_request
       :: match list_alerts true s with
          | [] => []
          | a :: _ => [reminder_request (VInt (alert_id a))]
          end.
Proof.
  cbv zeta.
  pose proof (platform_call "GET" [Lit "/api/admin/alerts?status=active"] None
                default_status _ _ _ _ _ (request_of_GET _ _) (handle_list_active s))
    as Hcall1.
  unfold test_reminder_system.
  rewrite bind_print, (bind_ok _ _ _ _ _ _ Hcall1), bind_liftE.
  cbn [and_then truthy contains dict_lookup String.eqb Ascii.eqb Bool.eqb].
  rewrite bind_liftE. cbn [getitem dict_lookup String.eqb Ascii.eqb Bool.eqb].
  destruct (list_alerts true s) as [| a rest] eqn:Hlist.
  - cbn [map truthy]. rewrite print_run.
    unfold reported, reply, status_line, default_status. cbn. repeat split.
  - cbn [map truthy]. rewrite bind_liftE. cbn [getitem0].
    rewrite bind_liftE.
    change (getitem (alert_json a) "id") with (@inr exn _ (VInt (alert_id a))).
    cbv iota beta.
    destruct (send_reminder (alert_id a) s) as [n |] eqn:Hsr.
    + assert (Hpost : handle (reminder_request (VInt (alert_id a))) s
                      = (s, reply 200 (succeeded [("reminders_sent", VInt (Z.of_nat n))])))
        by (rewrite handle_send_reminder, Hsr; reflexivity).
      pose proof (platform_call "POST"
                    [Lit "/api/admin/alerts/"; Str_ (VInt (alert_id a));
                     Lit "/send-reminder"]
                    None default_status _ _ _ _ _ (request_of_POST _ _) Hpost) as Hcall2.
      rewrite (bind_ok _ _ _ _ _ _ Hcall2), bind_liftE.
      unfold reported, reply, status_line, default_status. cbn. repeat split.
    + assert (Hpost : handle (reminder_request (VInt (alert_id a))) s
                      = (s, reply 400 (VDict [("success", VBool false)])))
        by (rewrite handle_send_reminder, Hsr; reflexivity).
      pose proof (platform_call "POST"
                    [Lit "/api/admin/alerts/"; Str_ (VInt (alert_id a));
                     Lit "/send-reminder"]
                    None default_status _ _ _ _ _ (request_of_POST _ _) Hpost) as Hcall2.
      rewrite (bind_ok _ _ _ _ _ _ Hcall2), bind_liftE.
      unfold reported, reply, status_line, default_status. cbn. repeat split.
Qed.
End ReminderOnPlatform.

(** C7. Once an alert is archived it stays inactive whatever requests
    follow: every alert of that identifier has [is_active] false, the
    listing filtered by [status=active] does not contain it, a reminder
    for it is refused, and [test_reminder_system] never asks for one. *)
Theorem archived_stays_inactive `{Builtins} `{Deployment} id s s' rs :
  archive id s = Some s' ->
  let s'' := run rs s' in
  (exists a, In a (alerts s'') /\ alert_id a = id)
  /\ (forall a, In a (alerts s'') -> alert_id a = id -> alert_is_active a = false)
  /\ (forall a, In a (list_alerts true s'') -> alert_id a <> id)
  /\ handle list_active_request s''
     = (s'', reply 200 (VDict [("alerts", VList (map alert_json (list_alerts true s'')))]))
  /\ send_reminder id s'' = None
  /\ handle (reminder_request (VInt id)) s'' = (s'', failure 400)
  /\ ~ In (reminder_request (VInt id)) (requests_in (trace_of (test_reminder_system s''))).
Proof.
  intros Harch s''.
  assert (Hinv : archived id s'').
  { apply run_archived. exact (archive_archived _ _ _ Harch). }
  split; [| split; [| split; [| split; [| split; [| split]]]]].
  - destruct Hinv as [Hknown _]. apply in_map_iff in Hknown as (a & Ha & Hin). eauto.
  - exact (proj2 Hinv).
  - intros a. exact (archived_not_listed _ _ _ Hinv).
  - reflexivity.
  - exact (archived_no_reminder _ _ Hinv).
  - rewrite handle_send_reminder, (archived_no_reminder _ _ Hinv). reflexivity.
  - destruct (reminder_requests s'') as (_ & _ & Hreq). rewrite Hreq.
    intros [Habs | Hin]; [discriminate |].
    destruct (list_alerts true s'') as [| a rest] eqn:Hlist; [destruct Hin |].
    destruct Hin as [Heq | []].
    assert (Hid : alert_id a = id) by (injection Heq; auto).
    refine (archived_not_listed _ _ a Hinv _ Hid). rewrite Hlist. left. reflexivity.
Qed.


(** ** Read state of a delivery *)

(** The request [user_apis] sends for [/read], [/snooze] and [/unread]. *)
Definition mark_request (id uid : Z) (action : string) : request :=
  Request POST [Lit BASE_URL; Lit "/api/user/alerts/"; Str_ (VInt id); Lit action]
    (Some (user_id_data (VInt uid))) json_headers.

Section Marks.
Context `{Deployment}.

Definition marked (id uid : Z) (st : read_state) (s : state) : state :=
  State (users s) (alerts s) (<[(id, uid) := st]> (deliveries s)).

Lemma mark_delivered id uid st st0 s :
  deliveries s !! (id, uid) = Some st0 -> mark id uid st s = Some (marked id uid st s).
Proof. intros Hd. unfold mark. rewrite Hd. reflexivity. Qed.

Lemma marked_lookup id uid st s : deliveries (marked id uid st s) !! (id, uid) = Some st.
Proof. cbn. apply lookup_insert_eq. Qed.

Lemma handle_read id uid s :
  handle (mark_request id uid "/read") s =
  match mark id uid Read s with
  | Some s' => (s', reply 200 (succeeded []))
  | None => (s, failure 404)
  end.
Proof. reflexivity. Qed.

Lemma handle_unread id uid s :
  handle (mark_request id uid "/unread") s =
  match mark id uid Unread s with
  | Some s' => (s', reply 200 (succeeded []))
  | None => (s, failure 404)
  end.
Proof. reflexivity. Qed.

Lemma handle_snooze id uid s :
  handle (mark_request id uid "/snooze") s =
  match mark id uid Snoozed s with
  | Some s' => (s', reply 200 (succeeded []))
  | None => (s, failure 404)
  end.
Proof. reflexivity. Qed.

(** Read then unread, and the sequence read, snooze, unread, leave a
    delivery unread and touch nothing else. *)
Lemma mark_round_trip id uid st s :
  deliveries s !! (id, uid) = Some st ->
  let s1 := fst (handle (mark_request id uid "/read") s) in
  let s2 := fst (handle (mark_request id uid "/unread") s1) in
  handle (mark_request id uid "/read") s = (s1, reply 200 (succeeded []))
  /\ deliveries s1 !! (id, uid) = Some Read
  /\ handle (mark_request id uid "/unread") s1 = (s2, reply 200 (succeeded []))
  /\ deliveries s2 !! (id, uid) = Some Unread
  /\ (forall k, k <> (id, uid) -> deliveries s2 !! k = deliveries s !! k)
  /\ alerts s2 = alerts s
  /\ users s2 = users s
  /\ deliveries
       (run [mark_request id uid "/read"; mark_request id uid "/snooze";
             mark_request id uid "/unread"] s) !! (id, uid)
     = Some Unread.
Proof.
  intros Hd s1 s2.
  assert (H1 : handle (mark_request id uid "/read") s
               = (marked id uid Read s, reply 200 (succeeded []))).
  { rewrite handle_read, (mark_delivered _ _ _ _ _ Hd). reflexivity. }
  assert (H2 : forall st' s', deliveries s' !! (id, uid) = Some st' ->
               handle (mark_request id uid "/unread") s'
               = (marked id uid Unread s', reply 200 (succeeded []))).
  { intros st' s' Hd'. rewrite handle_unread, (mark_delivered _ _ _ _ _ Hd'). reflexivity. }
  assert (H3 : forall st' s', deliveries s' !! (id, uid) = Some st' ->
               handle (mark_request id uid "/snooze") s'
               = (marked id uid Snoozed s', reply 200 (succeeded []))).
  { intros st' s' Hd'. rewrite handle_snooze, (mark_delivered _ _ _ _ _ Hd'). reflexivity. }
  subst s2 s1. rewrite H1. cbn [fst].
  rewrite (H2 _ _ (marked_lookup id uid Read s)). cbn [fst].
  repeat split.
  - apply marked_lookup.
  - apply marked_lookup.
  - intros k Hk. cbn. rewrite !lookup_insert_ne by congruence. reflexivity.
  - unfold run. cbn [fold_left]. rewrite H1. cbn [fst].
    rewrite (H3 _ _ (marked_lookup id uid Read s)). cbn [fst].
    rewrite (H2 _ _ (marked_lookup id uid Snoozed _)). cbn [fst].
    apply marked_lookup.
Qed.
End Marks.


Section UserApisOnPlatform.
Context `{Builtins} `{Deployment}.

Lemma user_alerts_delivered uid s a :
  In a (user_alerts uid s) -> exists st, deliveries s !! (alert_id a, uid) = Some st.
Proof.
  intros Hin. apply filter_In in Hin as [_ Hd].
  destruct (deliveries s !! (alert_id a, uid)) as [st |]; [eauto | discriminate].
Qed.

(** Test 4 of the harness on the platform, for a user who sees at least
    one alert: it lists the alerts, asks for the dashboard, and marks
    the first alert read, snoozed and unread. *)
Lemma user_apis_on_platform s u others a rest :
  user_alerts (user_id u) s = a :: rest ->
  let read := mark_request (alert_id a) (user_id u) "/read" in
  let snooze := mark_request (alert_id a) (user_id u) "/snooze" in
  let unread := mark_request (alert_id a) (user_id u) "/unread" in
  let o := user_apis (Some (user_json u :: others)) s in
  result_of o = inr tt
  /\ world_of o = run [read; snooze; unread] s
  /\ requests_in (trace_of o)
     = [Request GET [Lit BASE_URL; Lit "/api/user/alerts?user_id="; Str_ (VInt (user_id u))]
          None [];
        Request GET [Lit BASE_URL; Lit "/api/user/dashboard?user_id=";
                     Str_ (VInt (user_id u))] None [];
        read; snooze; unread].
Proof.
  intros Hlist read snooze unread o. subst o.
  assert (Hd : exists st, deliveries s !! (alert_id a, user_id u) = Some st).
  { apply user_alerts_delivered. rewrite Hlist. left. reflexivity. }
  destruct Hd as [st Hd].
  pose proof (platform_call "GET"
                [Lit "/api/user/alerts?user_id="; Str_ (VInt (user_id u))] None
                default_status s _ _ _ _ (request_of_GET _ _) eq_refl) as Hcall1.
  pose proof (platform_call "GET"
                [Lit "/api/user/dashboard?user_id="; Str_ (VInt (user_id u))] None
                default_status s _ _ _ _ (request_of_GET _ _) eq_refl) as Hcall2.
  assert (H1 : handle read s = (marked (alert_id a) (user_id u) Read s,
                                reply 200 (succeeded []))).
  { subst read. rewrite handle_read, (mark_delivered _ _ _ _ _ Hd). reflexivity. }
  assert (H2 : handle snooze (marked (alert_id a) (user_id u) Read s)
               = (marked (alert_id a) (user_id u) Snoozed
                    (marked (alert_id a) (user_id u) Read s),
                  reply 200 (succeeded []))).
  { subst snooze. rewrite handle_snooze.
    rewrite (mark_delivered _ _ _ _ _ (marked_lookup _ _ _ _)). reflexivity. }
  assert (H3 : handle unread (marked (alert_id a) (user_id u) Snoozed
                                (marked (alert_id a) (user_id u) Read s))
               = (marked (alert_id a) (user_id u) Unread
                    (marked (alert_id a) (user_id u) Snoozed
                       (marked (alert_id a) (user_id u) Read s)),
                  reply 200 (succeeded []))).
  { subst unread. rewrite handle_unread.
    rewrite (mark_delivered _ _ _ _ _ (marked_lookup _ _ _ _)). reflexivity. }
  pose proof (platform_call "POST"
                [Lit "/api/user/alerts/"; Str_ (VInt (alert_id a)); Lit "/read"]
                (Some (user_id_data (VInt (user_id u)))) default_status
                _ _ _ _ _ (request_of_POST _ _) H1) as Hcall3.
  pose proof (platform_call "POST"
                [Lit "/api/user/alerts/"; Str_ (VInt (alert_id a)); Lit "/snooze"]
                (Some (user_id_data (VInt (user_id u)))) default_status
                _ _ _ _ _ (request_of_POST _ _) H2) as Hcall4.
  pose proof (platform_call "POST"
                [Lit "/api/user/alerts/"; Str_ (VInt (alert_id a)); Lit "/unread"]
                (Some (user_id_data (VInt (user_id u)))) default_status
                _ _ _ _ _ (request_of_POST _ _) H3) as Hcall5.
  unfold run. cbn [fold_left]. rewrite H1. cbn [fst]. rewrite H2. cbn [fst].
  rewrite H3. cbn [fst].
  unfold user_apis.
  rewrite bind_print, bind_liftE. cbn [local].
  rewrite bind_liftE.
  change (getitem (user_json u) "id") with (@inr exn _ (VInt (user_id u))).
  cbv iota beta.
  rewrite (bind_ok _ _ _ _ _ _ Hcall1), bind_liftE.
  cbn [and_then truthy contains dict_lookup String.eqb Ascii.eqb Bool.eqb].
  rewrite bind_liftE. cbn [getitem dict_lookup String.eqb Ascii.eqb Bool.eqb].
  rewrite bind_liftE. cbn [len].
  rewrite bind_liftE.
  change (getitem (user_json u) "name") with (@inr exn _ (VStr (user_name u))).
  cbv iota beta.
  rewrite bind_print, (bind_ok _ _ _ _ _ _ Hcall2), bind_liftE.
  cbn [and_then truthy contains dict_lookup String.eqb Ascii.eqb Bool.eqb].
  rewrite bind_ret.
  rewrite Hlist. cbn [map length].
  replace (0 <? Z.of_nat (S (length (map alert_json rest))))%Z with true
    by (symmetry; apply Z.ltb_lt; lia).
  rewrite bind_liftE. cbn [getitem dict_lookup String.eqb Ascii.eqb Bool.eqb].
  rewrite bind_liftE. cbn [getitem0].
  rewrite bind_liftE.
  change (getitem (alert_json a) "id") with (@inr exn _ (VInt (alert_id a))).
  cbv iota beta.
  rewrite (bind_ok _ _ _ _ _ _ Hcall3), (bind_ok _ _ _ _ _ _ Hcall4),
    (bind_ok _ _ _ _ _ _ Hcall5), print_run.
  unfold reported, reply, status_line, default_status. cbn. repeat split.
Qed.
End UserApisOnPlatform.


(** ** The status each call expects *)

Section Expectations.
Context `{Builtins} {W : Type} `{Requests W} `{Clock W}.

(** The call that creates an alert. *)
Definition creation (method : string) (endpoint : text) : Prop :=
  method = "POST" /\ endpoint = [Lit "/api/admin/alerts"].

(** A call expects 201 when it creates an alert and 200 otherwise. *)
Definition expects (ev : event) : Prop :=
  match ev with
  | Call method endpoint _ expected_status =>
      (creation method endpoint /\ expected_status = 201%Z)
      \/ (~ creation method endpoint /\ expected_status = default_status)
  | _ => True
  end.

Definition always {A} (m : Py W A) : Prop :=
  forall w, Forall expects (trace_of (m w)).

Lemma always_ret {A} (a : A) : always (ret a).
Proof. intros w. constructor. Qed.

Lemma always_print t : always (print t).
Proof. intros w. repeat constructor. Qed.

Lemma always_liftE {A} (r : exn + A) : always (liftE r).
Proof. intros w. constructor. Qed.

Lemma always_extern {A} (f : W -> W * (exn + A)) : always (extern f).
Proof. intros w. unfold extern. destruct (f w). constructor. Qed.

Lemma always_bind {A B} (m : Py W A) (k : A -> Py W B) :
  always m -> (forall a, always (k a)) -> always (bind m k).
Proof.
  intros Hm Hk w. unfold bind. specialize (Hm w).
  destruct (m w) as [w1 t1 [e | a]]; [exact Hm |].
  cbn. apply Forall_app. split; [exact Hm | apply Hk].
Qed.

Lemma always_print_all ls : always (print_all ls).
Proof.
  induction ls as [| t ls IH]; cbn; [apply always_ret |].
  apply always_bind; [apply always_print | intros _; exact IH].
Qed.

Lemma handled_expects method endpoint e :
  Forall expects (fst (handled method endpoint e)).
Proof.
  unfold handled.
  destruct (is_ConnectionError (exn_cls e)); [repeat constructor |].
  destruct (is_Exception (exn_cls e)); repeat constructor.
Qed.

Lemma always_call method endpoint data expected_status :
  expects (Call method endpoint data expected_status) ->
  always (test_api_endpoint method endpoint data expected_status).
Proof.
  intros Hexp w.
  destruct (request_of method endpoint data) as [req |] eqn:Hreq.
  - destruct (send req w) as [w1 [e | r]] eqn:Hsend.
    + rewrite (raised_run _ _ _ _ _ _ _ _ Hreq Hsend). cbn [trace_of].
      constructor; [exact Hexp |]. constructor; [exact I |]. apply handled_expects.
    + rewrite (answered_run _ _ _ _ _ _ _ _ Hreq Hsend). cbn [trace_of].
      constructor; [exact Hexp |]. constructor; [exact I |].
      unfold reported. rewrite <- app_comm_cons. constructor; [exact I |].
      apply Forall_app. split.
      * destruct (negb (status_code r =? expected_status)%Z); repeat constructor.
      * destruct (body_of r); [apply handled_expects | constructor].
  - rewrite (unsupported_run _ _ _ _ _ Hreq).
    constructor; [exact Hexp |]. constructor; [exact I | constructor].
Qed.

Lemma expects_other method endpoint data :
  ~ creation method endpoint -> expects (Call method endpoint data default_status).
Proof. intros Hn. right. split; [exact Hn | reflexivity]. Qed.

Lemma expects_creation data : expects (Call "POST" [Lit "/api/admin/alerts"] data 201).
Proof. left. repeat split. Qed.
End Expectations.

Ltac not_creation := intros [Hm He]; discriminate.

Ltac always_step :=
  first
    [ apply always_ret
    | apply always_print
    | apply always_print_all
    | apply always_liftE
    | apply always_extern
    | apply always_call; first [apply expects_creation | apply expects_other; not_creation]
    | apply always_bind; [| intros ?]
    | match goal with
      | |- always (if ?c then _ else _) => destruct c
      | |- always (match ?x with _ => _ end) => destruct x
      end ].

Section ExpectationsOfTests.
Context `{Builtins} {W : Type} `{Requests W} `{Clock W}.

Lemma always_run_comprehensive_tests : always run_comprehensive_tests.
Proof.
  unfold run_comprehensive_tests, system_health, list_users, list_teams, list_alerts,
    create_alert, user_apis, analytics_apis, notification_history, system_statistics.
  repeat always_step.
Qed.

Lemma always_test_reminder_system : always test_reminder_system.
Proof. unfold test_reminder_system. repeat always_step. Qed.
End ExpectationsOfTests.


(** ** Creating an alert *)

Definition create_request (body : option pyval) : request :=
  Request POST [Lit BASE_URL; Lit "/api/admin/alerts"] body json_headers.

Definition update_request (id : pyval) (body : option pyval) : request :=
  Request PUT [Lit BASE_URL; Lit "/api/admin/alerts/"; Str_ id] body json_headers.

Definition archive_request (id : pyval) : request :=
  Request POST [Lit BASE_URL; Lit "/api/admin/alerts/"; Str_ id; Lit "/archive"]
    None json_headers.

Lemma new_alert_id id body a : new_alert id body = Some a -> alert_id a = id.
Proof.
  unfold new_alert. destruct body as [[| | | | | | dict] |]; try discriminate.
  intros Hnew.
  repeat match type of Hnew with
         | context [mbind _ ?o] => destruct o; cbn in Hnew; try discriminate
         end.
  injection Hnew as <-. reflexivity.
Qed.


Lemma find_fresh l a :
  alert_id a = fresh_id l ->
  find (fun b => (alert_id b =? alert_id a)%Z) (l ++ [a]) = Some a.
Proof.
  intros Hid.
  assert (Hlt : forall b, In b l -> (alert_id b < alert_id a)%Z).
  { intros b Hb. rewrite Hid. apply fresh_id_gt. exact Hb. }
  clear Hid. induction l as [| b l IH]; cbn.
  - rewrite Z.eqb_refl. reflexivity.
  - pose proof (Hlt b (or_introl eq_refl)) as Hb.
    destruct (alert_id b =? alert_id a)%Z eqn:Heq; [apply Z.eqb_eq in Heq; lia |].
    apply IH. intros c Hc. apply Hlt. right. exact Hc.
Qed.

Lemma find_alert_map_alert id f s a :
  (forall b, alert_id (f b) = alert_id b) ->
  find_alert id s = Some a -> find_alert id (map_alert id f s) = Some (f a).
Proof.
  intros Hf. unfold find_alert, map_alert. cbn.
  induction (alerts s) as [| b l IH]; cbn; [discriminate |].
  destruct (alert_id b =? id)%Z eqn:Heq.
  - intros [= <-]. rewrite Hf, Heq. reflexivity.
  - rewrite Heq. exact IH.
Qed.

Section CreateOnPlatform.
Context `{Builtins} `{Deployment}.

Lemma handle_create body s :
  handle (create_request body) s =
  match create body s with
  | Some (s', a) => (s', reply 201 (succeeded [("alert", alert_json a)]))
  | None => (s, failure 400)
  end.
Proof. reflexivity. Qed.

Lemma handle_update id body s :
  handle (update_request (VInt id) body) s =
  match update id body s with
  | Some s' => (s', reply 200 (succeeded []))
  | None => (s, failure 404)
  end.
Proof. reflexivity. Qed.

Lemma handle_archive id s :
  handle (archive_request (VInt id)) s =
  match archive id s with
  | Some s' => (s', reply 200 (succeeded []))
  | None => (s, failure 404)
  end.
Proof. reflexivity. Qed.

(** The alert the harness asks for. *)
Definition test_alert (id : Z) (admin_id : pyval) (expiry_time : string) : alert :=
  Alert id "Test Alert - System Check"
    "This is a test alert created by the system test script."
    "info" "organization" admin_id expiry_time true.

Lemma new_alert_data_valid id admin_id expiry_time :
  new_alert id (Some (new_alert_data admin_id expiry_time))
  = Some (test_alert id admin_id expiry_time).
Proof. reflexivity. Qed.

(** Test 3 of the harness on the platform: the alert is created, then
    updated and archived under the identifier the creation returned. *)
Lemma create_alert_on_platform s admin others admin_id :
  getitem admin "id" = inr admin_id ->
  let id := fresh_id (alerts s) in
  let data := new_alert_data admin_id "2026-01-01T00:00:00Z" in
  let o := create_alert (Some (admin :: others)) s in
  result_of o = inr tt
  /\ requests_in (trace_of o)
     = [create_request (Some data); update_request (VInt id) (Some update_data);
        archive_request (VInt id)]
  /\ archived id (world_of o)
  /\ printed (trace_of o)
     = [[Lit (nl ++ "➕ Testing Alert Creation...")];
        [Lit "✅"; Lit " "; Str_ (VStr "POST"); Lit " "; Lit "/api/admin/alerts";
         Lit " - Status: "; Str_ (VInt 201)];
        [Lit "   Created test alert with ID: "; Str_ (VInt id)];
        [Lit "✅"; Lit " "; Str_ (VStr "PUT"); Lit " "; Lit "/api/admin/alerts/";
         Str_ (VInt id); Lit " - Status: "; Str_ (VInt 200)];
        [Lit "✅"; Lit " "; Str_ (VStr "POST"); Lit " "; Lit "/api/admin/alerts/";
         Str_ (VInt id); Lit "/archive"; Lit " - Status: "; Str_ (VInt 200)];
        [Lit "   Cleaned up test alert"]].
Proof.
  intros Hadmin id data o. subst o.
  set (a := test_alert id admin_id "2026-01-01T00:00:00Z").
  set (s1 := State (users s) (alerts s ++ [a]) (deliver a (users s) (deliveries s))).
  assert (Hc : handle (create_request (Some data)) s
               = (s1, reply 201 (succeeded [("alert", alert_json a)]))).
  { rewrite handle_create. reflexivity. }
  assert (Hf1 : find_alert id s1 = Some a).
  { unfold find_alert. exact (find_fresh (alerts s) a eq_refl). }
  set (s2 := map_alert id (apply_update [("severity", VStr "warning");
                                         ("message", VStr "Updated test message")]) s1).
  assert (Hu : handle (update_request (VInt id) (Some update_data)) s1
               = (s2, reply 200 (succeeded []))).
  { rewrite handle_update. unfold update. rewrite Hf1. reflexivity. }
  assert (Hf2 : find_alert id s2 = Some (apply_update
                  [("severity", VStr "warning"); ("message", VStr "Updated test message")] a)).
  { apply find_alert_map_alert; [reflexivity | exact Hf1]. }
  set (s3 := map_alert id (set_active false) s2).
  assert (Harch : archive id s2 = Some s3).
  { unfold archive. rewrite Hf2. reflexivity. }
  assert (Ha : handle (archive_request (VInt id)) s2 = (s3, reply 200 (succeeded []))).
  { rewrite handle_archive, Harch. reflexivity. }
  pose proof (platform_call "POST" [Lit "/api/admin/alerts"] (Some data) 201
                _ _ _ _ _ (request_of_POST _ _) Hc) as Hcall1.
  pose proof (platform_call "PUT" [Lit "/api/admin/alerts/"; Str_ (VInt id)]
                (Some update_data) default_status
                _ _ _ _ _ (request_of_PUT _ _) Hu) as Hcall2.
  pose proof (platform_call "POST"
                [Lit "/api/admin/alerts/"; Str_ (VInt id); Lit "/archive"]
                None default_status
                _ _ _ _ _ (request_of_POST _ _) Ha) as Hcall3.
  unfold create_alert.
  rewrite bind_print, bind_liftE. cbn [local].
  rewrite (bind_liftE (getitem admin "id")), Hadmin, bind_extern. cbn [utcnow clock].
  cbn [isoformat add_hours clock].
  change (new_alert_data admin_id ("2026-01-01T00:00:00" ++ "Z")) with data.
  rewrite (bind_ok _ _ _ _ _ _ Hcall1), bind_liftE.
  cbn [and_then truthy succeeded emap get dict_lookup String.eqb Ascii.eqb Bool.eqb].
  rewrite bind_liftE.
  change (getitem (succeeded [("alert", alert_json a)]) "alert")
    with (@inr exn _ (alert_json a)).
  cbv iota beta. rewrite bind_liftE.
  change (getitem (alert_json a) "id") with (@inr exn _ (VInt id)).
  cbv iota beta.
  rewrite bind_print, (bind_ok _ _ _ _ _ _ Hcall2), (bind_ok _ _ _ _ _ _ Hcall3),
    print_run.
  split; [reflexivity |]. split; [| split].
  - unfold reported, reply, status_line, default_status. cbn. reflexivity.
  - cbn [world_of prepend]. exact (archive_archived _ _ _ Harch).
  - unfold reported, reply, status_line, default_status. cbn. reflexivity.
Qed.
End CreateOnPlatform.


(** C8. For a delivery of alert [id] to user [uid], marking it read and
    then unread leaves it unread: both requests succeed, and no other
    delivery, alert or user changes. The interactions of the harness
    (read, snooze, unread on the first alert the user sees) end in the
    same state. *)
Theorem read_then_unread `{Builtins} `{Deployment} id uid st s :
  deliveries s !! (id, uid) = Some st ->
  let s1 := fst (handle (mark_request id uid "/read") s) in
  let s2 := fst (handle (mark_request id uid "/unread") s1) in
  handle (mark_request id uid "/read") s = (s1, reply 200 (succeeded []))
  /\ deliveries s1 !! (id, uid) = Some Read
  /\ handle (mark_request id uid "/unread") s1 = (s2, reply 200 (succeeded []))
  /\ deliveries s2 !! (id, uid) = Some Unread
  /\ (forall k, k <> (id, uid) -> deliveries s2 !! k = deliveries s !! k)
  /\ alerts s2 = alerts s
  /\ users s2 = users s
  /\ (forall u others a rest,
        user_id u = uid ->
        alert_id a = id ->
        user_alerts uid s = a :: rest ->
        let o := user_apis (Some (user_json u :: others)) s in
        result_of o = inr tt
        /\ deliveries (world_of o) !! (id, uid) = Some Unread).
Proof.
  intros Hd s1 s2.
  destruct (mark_round_trip id uid st s Hd) as (H1 & H2 & H3 & H4 & H5 & H6 & H7 & H8).
  repeat (split; [assumption |]).
  intros u others a rest <- <- Hlist o.
  destruct (user_apis_on_platform s u others a rest Hlist) as (Hr & Hw & _).
  subst o. split; [exact Hr |]. rewrite Hw. exact H8.
Qed.

(** C6. Creating an alert from the six fields answers 201 with [success]
    and the alert, whose [id] is new; the fields the harness sends are
    valid. In every run of the harness, the creation call expects 201 and
    every other call expects 200. On the platform the harness reads the
    identifier from [response['alert']['id']] and uses it for the update
    and the archive requests. *)
Theorem alert_creation_contract `{Builtins} `{Deployment} :
  (forall s body a,
      new_alert (fresh_id (alerts s)) body = Some a ->
      let answer := reply 201 (succeeded [("alert", alert_json a)]) in
      status_code answer = 201%Z
      /\ (exists s', handle (create_request body) s = (s', answer) /\ In a (alerts s'))
      /\ get (succeeded [("alert", alert_json a)]) "success" VNone = inr (VBool true)
      /\ getitem (succeeded [("alert", alert_json a)]) "alert" = inr (alert_json a)
      /\ getitem (alert_json a) "id" = inr (VInt (fresh_id (alerts s)))
      /\ (forall b, In b (alerts s) -> alert_id b <> fresh_id (alerts s)))
  /\ (forall id admin_id expiry_time,
        new_alert id (Some (new_alert_data admin_id expiry_time))
        = Some (test_alert id admin_id expiry_time))
  /\ (forall (W : Type) `{Requests W} `{Clock W} (w : W),
        Forall expects (trace_of (run_comprehensive_tests w))
        /\ Forall expects (trace_of (test_reminder_system w)))
  /\ (forall s admin others admin_id,
        getitem admin "id" = inr admin_id ->
        let id := fresh_id (alerts s) in
        let data := new_alert_data admin_id "2026-01-01T00:00:00Z" in
        let o := create_alert (Some (admin :: others)) s in
        result_of o = inr tt
        /\ In (Call "POST" [Lit "/api/admin/alerts"] (Some data) 201) (trace_of o)
        /\ requests_in (trace_of o)
           = [create_request (Some data); update_request (VInt id) (Some update_data);
              archive_request (VInt id)]
        /\ In [Lit "   Created test alert with ID: "; Str_ (VInt id)] (printed (trace_of o))).
Proof.
  split; [| split; [| split]].
  - intros s body a Hnew answer. subst answer.
    pose proof (new_alert_id _ _ _ Hnew) as Hid.
    split; [reflexivity |]. split; [| split; [| split; [| split]]].
    + rewrite handle_create. unfold create. rewrite Hnew. cbn.
      eexists. split; [reflexivity |]. cbn. apply in_or_app. right. left. reflexivity.
    + reflexivity.
    + reflexivity.
    + cbn. rewrite Hid. reflexivity.
    + intros b Hb. pose proof (fresh_id_gt _ _ Hb). lia.
  - intros id admin_id expiry_time. apply new_alert_data_valid.
  - intros W HR HC w. split.
    + apply always_run_comprehensive_tests.
    + apply always_test_reminder_system.
  - intros s admin others admin_id Hadmin id data o.
    destruct (create_alert_on_platform s admin others admin_id Hadmin)
      as (Hr & Hreq & _ & Hp).
    subst o. split; [exact Hr |]. split; [| split; [exact Hreq |]].
    + clear Hreq Hp Hr. unfold create_alert.
      rewrite bind_print, bind_liftE. cbn [local].
      rewrite (bind_liftE (getitem admin "id")), Hadmin, bind_extern.
      cbn [utcnow clock isoformat add_hours].
      change (new_alert_data admin_id ("2026-01-01T00:00:00" ++ "Z")) with data.
      unfold test_api_endpoint at 1. rewrite !bind_bind, bind_emit.
      cbn [prepend trace_of app]. right. left. reflexivity.
    + rewrite Hp. cbn. tauto.
Qed.

(** C5. On the platform, triggering a reminder for an active alert with
    no eligible user answers 200 with [success] true and
    [reminders_sent = 0]; [test_reminder_system] then takes its success
    branch and prints "Sent 0 reminders". In general the harness takes
    that branch whenever the answer has a true [success], and reads
    [reminders_sent] with default 0. *)
Theorem reminder_with_no_eligible_user `{Builtins} `{Deployment} :
  (forall s a,
      find_alert (alert_id a) s = Some a ->
      alert_is_active a = true ->
      eligible_users (alert_id a) s = [] ->
      handle (reminder_request (VInt (alert_id a))) s
      = (s, reply 200 (succeeded [("reminders_sent", VInt 0)])))
  /\ (forall s a rest,
        wf s ->
        list_alerts true s = a :: rest ->
        eligible_users (alert_id a) s = [] ->
        let o := test_reminder_system s in
        result_of o = inr tt
        /\ world_of o = s
        /\ requests_in (trace_of o)
           = [Request GET [Lit BASE_URL; Lit "/api/admin/alerts?status=active"] None [];
              reminder_request (VInt (alert_id a))]
        /\ printed (trace_of o)
           = [[Lit (nl ++ "⏰ Testing Reminder System...")];
              [Lit "✅"; Lit " "; Str_ (VStr "GET"); Lit " ";
               Lit "/api/admin/alerts?status=active"; Lit " - Status: "; Str_ (VInt 200)];
              [Lit "✅"; Lit " "; Str_ (VStr "POST"); Lit " ";
               Lit "/api/admin/alerts/"; Str_ (VInt (alert_id a)); Lit "/send-reminder";
               Lit " - Status: "; Str_ (VInt 200)];
              [Lit "   ✅ Successfully triggered reminder for alert ";
               Str_ (VInt (alert_id a))];
              [Lit "   Sent "; Str_ (VInt 0); Lit " reminders"]])
  /\ (forall (W : Type) `{Requests W} `{Clock W}
             (w w1 w2 : W) t1 t2 listing active first alert_id d v,
        test_api_endpoint "GET" [Lit "/api/admin/alerts?status=active"] None default_status w
          = Outcome w1 t1 (inr listing) ->
        and_then listing (contains "alerts" listing) = inr true ->
        getitem listing "alerts" = inr active ->
        truthy active = true ->
        getitem0 active = inr first ->
        getitem first "id" = inr alert_id ->
        test_api_endpoint "POST"
          [Lit "/api/admin/alerts/"; Str_ alert_id; Lit "/send-reminder"]
          None default_status w1
          = Outcome w2 t2 (inr (VDict d)) ->
        dict_lookup "success" d = Some v ->
        truthy v = true ->
        let o := test_reminder_system w in
        result_of o = inr tt
        /\ exists pre,
            printed (trace_of o)
            = pre ++ [[Lit "   ✅ Successfully triggered reminder for alert "; Str_ alert_id];
                      [Lit "   Sent ";
                       Str_ (default (VInt 0) (dict_lookup "reminders_sent" d));
                       Lit " reminders"]]).
Proof.
  split; [| split].
  - intros s a Hfind Hactive Hnone.
    rewrite handle_send_reminder. unfold send_reminder.
    rewrite Hfind, Hactive, Hnone. reflexivity.
  - intros s a rest Hwf Hlist Hnone o. subst o.
    assert (Hin : In a (alerts s) /\ alert_is_active a = true).
    { apply filter_In. change (In a (list_alerts true s)). rewrite Hlist. left. reflexivity. }
    destruct Hin as [Hin Hactive].
    pose proof (find_alert_unique _ _ Hwf Hin) as Hfind.
    assert (Hpost : handle (reminder_request (VInt (alert_id a))) s
                    = (s, reply 200 (succeeded [("reminders_sent", VInt 0)]))).
    { rewrite handle_send_reminder. unfold send_reminder.
      rewrite Hfind, Hactive, Hnone. reflexivity. }
    pose proof (platform_call "GET" [Lit "/api/admin/alerts?status=active"] None
                  default_status _ _ _ _ _ (request_of_GET _ _) (handle_list_active s))
      as Hcall1.
    pose proof (platform_call "POST"
                  [Lit "/api/admin/alerts/"; Str_ (VInt (alert_id a)); Lit "/send-reminder"]
                  None default_status _ _ _ _ _ (request_of_POST _ _) Hpost) as Hcall2.
    assert (Htruthy : truthy (VList (map alert_json (list_alerts true s))) = true)
      by (rewrite Hlist; reflexivity).
    assert (Hfirst : getitem0 (VList (map alert_json (list_alerts true s)))
                     = inr (alert_json a))
      by (rewrite Hlist; reflexivity).
    rewrite (reminder_success_path s s s _ _
               (VDict [("alerts", VList (map alert_json (list_alerts true s)))])
               (VList (map alert_json (list_alerts true s)))
               (alert_json a) (VInt (alert_id a))
               [("success", VBool true); ("reminders_sent", VInt 0)] (VBool true)
               Hcall1 eq_refl eq_refl Htruthy Hfirst eq_refl Hcall2 eq_refl eq_refl).
    unfold reported, reply, status_line, default_status. cbn. repeat split.
  - intros W HR HC w w1 w2 t1 t2 listing active first alert_id d v
      Hlist Hc Halerts Htruthy Hfirst Hid Hpost Hsucc Hv o. subst o.
    rewrite (reminder_success_path _ _ _ _ _ _ _ _ _ _ _
               Hlist Hc Halerts Htruthy Hfirst Hid Hpost Hsucc Hv).
    split; [reflexivity |].
    exists ([Lit (nl ++ "⏰ Testing Reminder System...")] :: printed (t1 ++ t2)).
    cbn [trace_of printed]. rewrite app_assoc, printed_app. reflexivity.
Qed.
End PlatformFacts.

(** * A small deployment *)

Module Demo.
Import PyOps Harness Backend EndpointFacts PlatformFacts AsciiInstance.

Definition quote (s : string) : string :=
  (String (ascii_of_nat 34) s ++ String (ascii_of_nat 34) EmptyString)%string.

Fixpoint join (sep : string) (l : list string) : string :=
  match l with
  | [] => EmptyString
  | [x] => x
  | x :: r => (x ++ sep ++ join sep r)%string
  end.

(** A JSON writer for the answers of the platform, which hold no float
    and no character that needs escaping. *)
Fixpoint dumps (v : pyval) : string :=
  match v with
  | VNone => "null"
  | VBool true => "true"
  | VBool false => "false"
  | VInt z => pretty z
  | VFloat _ => "0.0"
  | VStr s => quote s
  | VList l => ("[" ++ join ", " (map dumps l) ++ "]")%string
  | VDict d =>
      ("{" ++ join ", " (map (fun kv => quote (fst kv) ++ ": " ++ dumps (snd kv)) d)
       ++ "}")%string
  end.

Lemma pretty_N_go_nonempty (x : N) (s : string) :
  s <> EmptyString -> pretty_N_go x s <> EmptyString.
Proof.
  revert s. induction (N.lt_wf_0 x) as [x _ IH]. intros s Hs.
  destruct (decide (0 < x)%N) as [Hpos | Hzero].
  - rewrite pretty_N_go_step by exact Hpos.
    apply IH; [apply N.div_lt; lia | discriminate].
  - assert (x = 0%N) as -> by lia. rewrite pretty_N_go_0. exact Hs.
Qed.

Lemma pretty_N_nonempty (x : N) : pretty x <> EmptyString.
Proof.
  unfold pretty, pretty_N. destruct (decide (x = 0%N)) as [-> | Hne]; [discriminate |].
  rewrite pretty_N_go_step by lia. apply pretty_N_go_nonempty. discriminate.
Qed.

Lemma dumps_nonempty v : dumps v <> EmptyString.
Proof.
  destruct v as [| [] | [| p | p] | | | |]; cbn; try discriminate;
    apply pretty_N_nonempty.
Qed.

(** Alerts for the organization are seen by every user; a delivery is
    acknowledged once read. *)
#[export] Instance deployment : Deployment := {|
  visible := fun a _ => String.eqb (alert_visibility_type a) "organization";
  acknowledged := fun st => match st with Read => true | _ => false end;
  Backend.dumps := dumps;
  Backend.dumps_nonempty := dumps_nonempty
|}.

Definition admin : user := User 1 "Admin" "admin@example.com" true.
Definition bob : user := User 2 "Bob" "bob@example.com" false.

Definition outage : alert :=
  Alert 1 "Outage" "Database maintenance tonight" "warning" "organization"
    (VInt 1) "2026-01-02T00:00:00Z" true.

(** One active alert, delivered to Bob, who has read it. *)
Definition platform : state :=
  State [admin; bob] [outage] {[ (1%Z, 2%Z) := Read ]}.

Lemma platform_wf : wf platform.
Proof. unfold wf. cbn. apply NoDup_cons. split; [set_solver | apply NoDup_nil_2]. Defined.

Lemma reminder_with_no_eligible_user_witness :
  list_alerts true platform = [outage]
  /\ eligible_users 1 platform = []
  /\ printed (trace_of (test_reminder_system platform))
     = [[Lit (nl ++ "⏰ Testing Reminder System...")];
        [Lit "✅"; Lit " "; Str_ (VStr "GET"); Lit " ";
         Lit "/api/admin/alerts?status=active"; Lit " - Status: "; Str_ (VInt 200)];
        [Lit "✅"; Lit " "; Str_ (VStr "POST"); Lit " ";
         Lit "/api/admin/alerts/"; Str_ (VInt 1); Lit "/send-reminder";
         Lit " - Status: "; Str_ (VInt 200)];
        [Lit "   ✅ Successfully triggered reminder for alert "; Str_ (VInt 1)];
        [Lit "   Sent "; Str_ (VInt 0); Lit " reminders"]].
Proof.
  assert (Hlist : list_alerts true platform = [outage]) by reflexivity.
  assert (Hnone : eligible_users (alert_id outage) platform = [])
    by (vm_compute; reflexivity).
  split; [exact Hlist |]. split; [exact Hnone |].
  exact (proj2 (proj2 (proj2
    (proj1 (proj2 reminder_with_no_eligible_user) platform outage [] platform_wf
       Hlist Hnone)))).
Defined.

Lemma alert_creation_contract_witness :
  getitem (user_json admin) "id" = inr (VInt 1)
  /\ requests_in (trace_of (create_alert (Some [user_json admin]) platform))
     = [create_request (Some (new_alert_data (VInt 1) "2026-01-01T00:00:00Z"));
        update_request (VInt 2) (Some update_data);
        archive_request (VInt 2)].
Proof.
  assert (Hid : getitem (user_json admin) "id" = inr (VInt 1)) by reflexivity.
  split; [exact Hid |].
  exact (proj1 (proj2 (proj2
    (proj2 (proj2 (proj2 alert_creation_contract)) platform (user_json admin) []
       (VInt 1) Hid)))).
Defined.

(** The platform after the outage alert is archived. *)
Definition after_archive : state :=
  State [admin; bob] [set_active false outage] {[ (1%Z, 2%Z) := Read ]}.

Lemma archived_stays_inactive_witness :
  archive 1 platform = Some after_archive
  /\ send_reminder 1
       (run [create_request (Some (new_alert_data (VInt 1) "2026-03-01T00:00:00Z"));
             update_request (VInt 1) (Some update_data);
             mark_request 1 2 "/unread"] after_archive)
     = None.
Proof.
  assert (Harch : archive 1 platform = Some after_archive) by reflexivity.
  split; [exact Harch |].
  exact (proj1 (proj2 (proj2 (proj2 (proj2
    (archived_stays_inactive 1 platform after_archive
       [create_request (Some (new_alert_data (VInt 1) "2026-03-01T00:00:00Z"));
        update_request (VInt 1) (Some update_data);
        mark_request 1 2 "/unread"] Harch)))))).
Defined.

Lemma read_then_unread_witness :
  deliveries platform !! (1%Z, 2%Z) = Some Read
  /\ deliveries
       (fst (handle (mark_request 1 2 "/unread")
               (fst (handle (mark_request 1 2 "/read") platform)))) !! (1%Z, 2%Z)
     = Some Unread.
Proof.
  assert (Hd : deliveries platform !! (1%Z, 2%Z) = Some Read) by (vm_compute; reflexivity).
  split; [exact Hd |].
  exact (proj1 (proj2 (proj2 (proj2 (read_then_unread 1 2 Read platform Hd))))).
Defined.
End Demo.


(** * Further properties of run.py *)

Module RunMore.
Import Run RunFacts.

Definition documentation_line : text := [Lit (nl ++ "📚 API Documentation:")].

Section Facts.
Context `{Builtins} {W : Type} `{Flask W}.

(** X1. The handlers of [main] do not guard [create_app]: whatever it
    raises, also an [Exception], leaves [main] as it is; nothing is printed
    and the server is not started. *)
Theorem create_app_error_escapes env w w1 e :
  create_app (default "development" (env !! "FLASK_ENV")) w = (w1, inl e) ->
  let o := main env w in
  result_of o = inl e
  /\ world_of o = w1
  /\ (forall t, ~ In (Print t) (trace_of o))
  /\ (forall host port debug, ~ In (AppRun host port debug) (trace_of o)).
Proof.
  intros Hc o.
  assert (Hcfg : config_name_of env = default "development" (env !! "FLASK_ENV")).
  { unfold config_name_of, getenv. destruct (env !! "FLASK_ENV"); reflexivity. }
  rewrite <- Hcfg in Hc. subst o. rewrite (main_create_fails _ _ _ _ Hc). cbn.
  repeat split.
  - intros t [Hin | []]. discriminate.
  - intros host port debug [Hin | []]. discriminate.
Qed.

(** X2. When the server stops by returning from [app.run], [main] returns
    normally: the start of the server is its last event, and neither the
    shutdown line nor an error line is printed. *)
Theorem main_clean_stop env w w1 w2 a port :
  create_app (config_name_of env) w = (w1, inr a) ->
  int_ (getenv env "PORT" 5000%Z) = inr port ->
  app_run a (host_of env) port (String.eqb (config_name_of env) "development") w1
    = (w2, inr tt) ->
  let o := main env w in
  result_of o = inr tt
  /\ world_of o = w2
  /\ last (trace_of o)
     = Some (AppRun (host_of env) port (String.eqb (config_name_of env) "development"))
  /\ ~ In (Print shutdown_message) (trace_of o)
  /\ (forall e, ~ In (Print (error_message e)) (trace_of o)).
Proof.
  intros Hc Hp Hr o. subst o. rewrite (main_started _ _ _ _ _ _ _ Hc Hp Hr).
  cbn [result_of world_of trace_of].
  split; [reflexivity |]. split; [reflexivity |]. split; [| split].
  - rewrite app_comm_cons. apply last_snoc.
  - intros [Hin | [Hin | [Hin | []]]%in_app_iff]; [discriminate | | discriminate].
    unfold banner in Hin. rewrite !in_app_iff in Hin.
    destruct (String.eqb (config_name_of env) "development"); cbn in Hin;
      repeat match goal with
             | Hx : _ \/ _ |- _ => destruct Hx
             | Hx : False |- _ => destruct Hx
             | Hx : Print _ = Print _ |- _ => discriminate Hx
             end.
  - intros e [Hin | [Hin | [Hin | []]]%in_app_iff]; [discriminate | | discriminate].
    unfold banner in Hin. rewrite !in_app_iff in Hin.
    destruct (String.eqb (config_name_of env) "development"); cbn in Hin;
      repeat match goal with
             | Hx : _ \/ _ |- _ => destruct Hx
             | Hx : False |- _ => destruct Hx
             | Hx : Print _ = Print _ |- _ => discriminate Hx
             end.
Qed.

(** X3. In a run that reaches [app.run], the API documentation block is
    printed exactly when the server is started in debug mode. *)
Theorem documentation_iff_debug env w w1 w2 a port r :
  create_app (config_name_of env) w = (w1, inr a) ->
  int_ (getenv env "PORT" 5000%Z) = inr port ->
  app_run a (host_of env) port (String.eqb (config_name_of env) "development") w1
    = (w2, r) ->
  In (Print documentation_line) (trace_of (main env w))
  <-> In (AppRun (host_of env) port true) (trace_of (main env w)).
Proof.
  intros Hc Hp Hr. rewrite (main_started _ _ _ _ _ _ _ Hc Hp Hr).
  cbn [trace_of]. unfold banner, documentation_line.
  destruct (String.eqb (config_name_of env) "development").
  - split; intros _.
    + right. apply in_or_app. right. left. reflexivity.
    + right. cbn. tauto.
  - split; intros Hin; exfalso;
      destruct Hin as [Hin | Hin]; try discriminate;
      rewrite !in_app_iff in Hin; cbn in Hin;
      destruct r as [e | ?];
      try destruct (is_KeyboardInterrupt (exn_cls e));
      try destruct (is_Exception (exn_cls e));
      cbn in Hin;
      repeat match goal with
             | Hx : _ \/ _ |- _ => destruct Hx
             | Hx : False |- _ => destruct Hx
             | Hx : _ = _ |- _ => discriminate Hx
             end.
Qed.
End Facts.

Import AsciiBuiltins AsciiInstance RunScript.

Definition no_database : exn := Exn (OtherException "RuntimeError") [Lit "no database"].

Definition broken : world := World (inl no_database) (inr tt) [].

Definition stopping : world := World (inr tt) (inr tt) [].

(** No [FLASK_ENV] and no [PORT]: the development defaults. *)
Definition env_dev : gmap string string := <["HOST" := "0.0.0.0"]> ∅.

Lemma create_app_error_escapes_witness :
  is_Exception (exn_cls no_database) = true
  /\ result_of (main env_8080 broken) = inl no_database
  /\ started (world_of (main env_8080 broken)) = [].
Proof.
  split; [reflexivity |].
  pose proof (create_app_error_escapes env_8080 broken broken no_database eq_refl)
    as (Hr & Hw & _).
  cbv zeta in Hr, Hw. rewrite Hr, Hw. split; reflexivity.
Defined.

Lemma main_clean_stop_witness :
  result_of (main env_8080 stopping) = inr tt
  /\ started (world_of (main env_8080 stopping)) = [("127.0.0.1", 8080%Z, false)].
Proof.
  pose proof (main_clean_stop env_8080 stopping stopping
                (World (inr tt) (inr tt) [("127.0.0.1", 8080%Z, false)]) tt 8080%Z
                eq_refl eq_refl eq_refl) as (Hr & Hw & _).
  cbv zeta in Hr, Hw. rewrite Hr, Hw. split; reflexivity.
Defined.

Lemma documentation_iff_debug_witness :
  ~ In (Print documentation_line) (trace_of (main env_8080 stopping))
  /\ In (Print documentation_line) (trace_of (main env_dev stopping)).
Proof.
  split.
  - intros Hin.
    apply (@documentation_iff_debug builtins world flask env_8080 stopping stopping
             (World (inr tt) (inr tt) [("127.0.0.1", 8080%Z, false)]) tt 8080%Z (inr tt)
             eq_refl eq_refl eq_refl) in Hin.
    vm_compute in Hin.
    repeat match goal with
           | Hx : _ \/ _ |- _ => destruct Hx
           | Hx : False |- _ => destruct Hx
           | Hx : _ = _ |- _ => discriminate Hx
           end.
  - apply (@documentation_iff_debug builtins world flask env_dev stopping stopping
             (World (inr tt) (inr tt) [("0.0.0.0", 5000%Z, true)]) tt 5000%Z (inr tt)
             eq_refl eq_refl eq_refl).
    vm_compute. tauto.
Defined.
End RunMore.

(** * Further properties of test_api_endpoint *)

Module EndpointMore.
Import PyOps Harness EndpointFacts.

Section Facts.
Context `{Builtins} {W : Type} `{Requests W} `{Clock W}.

Lemma run_cases method endpoint data expected_status w :
  let o := test_api_endpoint method endpoint data expected_status w in
  (request_of method endpoint data = None
   /\ o = Outcome w
            [Call method endpoint data expected_status;
             Print (error_line method endpoint (unsupported_method method))]
            (inr VNone))
  \/ (exists req w1 e,
        request_of method endpoint data = Some req
        /\ send req w = (w1, inl e)
        /\ o = Outcome w1
                 (Call method endpoint data expected_status :: Http req
                  :: fst (handled method endpoint e))
                 (snd (handled method endpoint e)))
  \/ (exists req w1 r,
        request_of method endpoint data = Some req
        /\ send req w = (w1, inr r)
        /\ o = Outcome w1
                 (Call method endpoint data expected_status :: Http req
                  :: reported method endpoint expected_status r
                  ++ match body_of r with
                     | inl e => fst (handled method endpoint e)
                     | inr _ => []
                     end)
                 (match body_of r with
                  | inl e => snd (handled method endpoint e)
                  | inr v => inr v
                  end)).
Proof.
  cbv zeta. destruct (request_of method endpoint data) as [req |] eqn:Hreq.
  - destruct (send req w) as [w1 [e | r]] eqn:Hsend.
    + right. left. exists req, w1, e.
      split; [reflexivity |]. split; [exact Hsend |].
      apply (raised_run _ _ _ _ _ _ _ _ Hreq Hsend).
    + right. right. exists req, w1, r.
      split; [reflexivity |]. split; [exact Hsend |].
      apply (answered_run _ _ _ _ _ _ _ _ Hreq Hsend).
  - left. split; [reflexivity |]. apply (unsupported_run _ _ _ _ _ Hreq).
Qed.

Lemma handled_no_request method endpoint e :
  requests_in (fst (handled method endpoint e)) = [].
Proof.
  unfold handled.
  destruct (is_ConnectionError (exn_cls e)); [reflexivity |].
  destruct (is_Exception (exn_cls e)); reflexivity.
Qed.

Lemma reported_no_request method endpoint expected_status r :
  requests_in (reported method endpoint expected_status r) = [].
Proof.
  unfold reported. destruct (negb (status_code r =? expected_status)%Z); reflexivity.
Qed.

Lemma request_of_shape method endpoint data req :
  request_of method endpoint data = Some req ->
  req_url req = Lit BASE_URL :: endpoint
  /\ ((str_upper method = "GET" /\ req_method req = GET
       /\ req_json req = None /\ req_headers req = [])
      \/ (str_upper method <> "GET"
          /\ (str_upper method = "POST" /\ req_method req = POST
              \/ str_upper method = "PUT" /\ req_method req = PUT)
          /\ req_json req = data /\ req_headers req = json_headers)).
Proof.
  unfold request_of. cbv zeta.
  destruct (String.eqb (str_upper method) "GET") eqn:Hg.
  { intros [= <-]. apply String.eqb_eq in Hg. split; [reflexivity |]. left. tauto. }
  apply String.eqb_neq in Hg.
  destruct (String.eqb (str_upper method) "POST") eqn:Hp.
  { intros [= <-]. apply String.eqb_eq in Hp. split; [reflexivity |]. right. tauto. }
  destruct (String.eqb (str_upper method) "PUT") eqn:Hu; [| discriminate].
  intros [= <-]. apply String.eqb_eq in Hu. split; [reflexivity |]. right. tauto.
Qed.

(** X4. A call sends at most one request, and only to [BASE_URL] followed
    by the endpoint. A GET carries neither body nor headers, whatever
    [data] is passed; a POST or PUT carries [data] as JSON with the
    [Content-Type] header; any other method sends nothing and leaves the
    world as it was. *)
Theorem sends_the_selected_request method endpoint data expected_status w :
  let o := test_api_endpoint method endpoint data expected_status w in
  (requests_in (trace_of o) = []
   /\ world_of o = w
   /\ str_upper method <> "GET" /\ str_upper method <> "POST" /\ str_upper method <> "PUT")
  \/ (exists req,
        requests_in (trace_of o) = [req]
        /\ world_of o = fst (send req w)
        /\ req_url req = Lit BASE_URL :: endpoint
        /\ ((str_upper method = "GET" /\ req_method req = GET
             /\ req_json req = None /\ req_headers req = [])
            \/ (str_upper method <> "GET"
                /\ (str_upper method = "POST" /\ req_method req = POST
                    \/ str_upper method = "PUT" /\ req_method req = PUT)
                /\ req_json req = data /\ req_headers req = json_headers))).
Proof.
  destruct (run_cases method endpoint data expected_status w)
    as [[Hreq Ho] | [(req & w1 & e & Hreq & Hsend & Ho) | (req & w1 & r & Hreq & Hsend & Ho)]];
    cbv zeta in *; rewrite Ho; cbn [trace_of world_of].
  - left. split; [reflexivity |]. split; [reflexivity |].
    unfold request_of in Hreq. cbv zeta in Hreq.
    destruct (String.eqb (str_upper method) "GET") eqn:Hg; [discriminate |].
    destruct (String.eqb (str_upper method) "POST") eqn:Hp; [discriminate |].
    destruct (String.eqb (str_upper method) "PUT") eqn:Hu; [discriminate |].
    apply String.eqb_neq in Hg, Hp, Hu. tauto.
  - right. exists req. cbn [requests_in]. rewrite handled_no_request, Hsend.
    split; [reflexivity |]. split; [reflexivity |]. exact (request_of_shape _ _ _ _ Hreq).
  - right. exists req. cbn [requests_in].
    rewrite requests_in_app, reported_no_request, Hsend.
    split.
    + destruct (body_of r); [rewrite handled_no_request |]; reflexivity.
    + split; [reflexivity |]. exact (request_of_shape _ _ _ _ Hreq).
Qed.

(** X5. No exception deriving from [Exception] leaves [test_api_endpoint]:
    an exception that does leave it was raised by the request or by
    [json()] and is one that [except Exception] does not match. *)
Theorem no_Exception_escapes method endpoint data expected_status w e :
  result_of (test_api_endpoint method endpoint data expected_status w) = inl e ->
  is_Exception (exn_cls e) = false
  /\ exists req,
       requests_in (trace_of (test_api_endpoint method endpoint data expected_status w))
       = [req]
       /\ (snd (send req w) = inl e
           \/ exists r, snd (send req w) = inr r /\ body_of r = inl e).
Proof.
  destruct (run_cases method endpoint data expected_status w)
    as [[Hreq Ho] | [(req & w1 & e' & Hreq & Hsend & Ho) | (req & w1 & r & Hreq & Hsend & Ho)]];
    cbv zeta in *; rewrite Ho; cbn [trace_of result_of]; [discriminate | |].
  - unfold handled.
    destruct (is_ConnectionError (exn_cls e')) eqn:Hc; [discriminate |].
    destruct (is_Exception (exn_cls e')) eqn:Hx; [discriminate |].
    cbn. intros [= <-]. split; [exact Hx |].
    exists req. split; [reflexivity |]. left. rewrite Hsend. reflexivity.
  - destruct (body_of r) as [e' |] eqn:Hbody; [| discriminate].
    unfold handled.
    destruct (is_ConnectionError (exn_cls e')) eqn:Hc; [discriminate |].
    destruct (is_Exception (exn_cls e')) eqn:Hx; [discriminate |].
    cbn [fst snd]. intros [= <-]. split; [exact Hx |].
    exists req. split.
    + cbn [requests_in]. rewrite requests_in_app, reported_no_request. reflexivity.
    + right. exists r. rewrite Hsend. split; [reflexivity | exact Hbody].
Qed.

(** X6. After a response with the expected status the call prints one
    line, marked as passed, and returns the decoded body, or [{}] when the
    body is empty. *)
Theorem expected_status_quiet method endpoint data w req w1 r v :
  request_of method endpoint data = Some req ->
  send req w = (w1, inr r) ->
  body_of r = inr v ->
  let o := test_api_endpoint method endpoint data (status_code r) w in
  result_of o = inr v
  /\ printed (trace_of o) = [status_line method endpoint (status_code r) r]
  /\ hd_error (status_line method endpoint (status_code r) r) = Some (Lit "✅")
  /\ (resp_content r = EmptyString -> v = VDict []).
Proof.
  intros Hreq Hsend Hbody o. subst o.
  rewrite (answered_run _ _ _ _ _ _ _ _ Hreq Hsend), Hbody.
  unfold reported, status_line. rewrite Z.eqb_refl. cbn.
  repeat split. intros Hempty. unfold body_of in Hbody. rewrite Hempty in Hbody.
  congruence.
Qed.
End Facts.

Import AsciiBuiltins AsciiInstance Script.

Definition interrupt : exn := Exn KeyboardInterrupt [].

Definition empty_204 : response := Response 204 EmptyString EmptyString (inr VNone).

Lemma no_Exception_escapes_witness :
  let o := test_api_endpoint "GET" [Lit "/api/admin/users"] None 200
             (World [inl interrupt] []) in
  result_of o = inl interrupt /\ is_Exception (exn_cls interrupt) = false.
Proof.
  cbv zeta. split; [reflexivity |].
  exact (proj1 (no_Exception_escapes "GET" [Lit "/api/admin/users"] None 200
                  (World [inl interrupt] []) interrupt eq_refl)).
Defined.

Lemma expected_status_quiet_witness :
  result_of (test_api_endpoint "POST" [Lit "/api/admin/alerts/7/archive"] None 204
               (World [inr empty_204] []))
  = inr (VDict []).
Proof.
  exact (proj1 (expected_status_quiet "POST" [Lit "/api/admin/alerts/7/archive"] None
                  (World [inr empty_204] []) _ _ empty_204 (VDict [])
                  eq_refl eq_refl eq_refl)).
Defined.
End EndpointMore.

(** * Further properties of the tests *)

Module HarnessMore.
Import PyOps Harness EndpointFacts PlatformFacts.

(** X7. The guard [x and 'key' in x] before [x['key']], by the shape of
    [x]. A false value stops the guard without a membership test. On a true
    JSON object the guard tells whether the key is present, and then the
    subscript returns its value. A JSON array or string passes the guard
    exactly when it contains the key, and the subscript raises [TypeError]
    all the same. A true number or boolean raises [TypeError] in the guard
    itself. *)
Theorem guarded_subscript (v : pyval) (key : string) :
  (truthy v = false -> and_then v (contains key v) = inr false)
  /\ (truthy v = true ->
      match v with
      | VDict d =>
          match dict_lookup key d with
          | Some x => and_then v (contains key v) = inr true /\ getitem v key = inr x
          | None => and_then v (contains key v) = inr false
          end
      | VList l =>
          and_then v (contains key v) = inr (existsb (fun x => eq_str x key) l)
          /\ exists e, getitem v key = inl e /\ exn_cls e = TypeError
      | VStr s =>
          and_then v (contains key v) = inr (is_substring key s)
          /\ exists e, getitem v key = inl e /\ exn_cls e = TypeError
      | _ => exists e, and_then v (contains key v) = inl e /\ exn_cls e = TypeError
      end).
Proof.
  unfold and_then. split.
  - intros ->. reflexivity.
  - intros Ht. rewrite Ht.
    destruct v as [| b | z | f | s | l | d]; cbn [contains getitem].
    + discriminate Ht.
    + eexists. split; reflexivity.
    + eexists. split; reflexivity.
    + eexists. split; reflexivity.
    + split; [reflexivity |]. eexists. split; reflexivity.
    + split; [reflexivity |]. eexists. split; reflexivity.
    + destruct (dict_lookup key d); [split |]; reflexivity.
Qed.

Lemma guarded_subscript_witness :
  truthy (VList [VStr "users"]) = true
  /\ and_then (VList [VStr "users"]) (contains "users" (VList [VStr "users"])) = inr true
  /\ (exists e, getitem (VList [VStr "users"]) "users" = inl e /\ exn_cls e = TypeError)
  /\ truthy (VInt 3) = true
  /\ (exists e, and_then (VInt 3) (contains "users" (VInt 3)) = inl e
                /\ exn_cls e = TypeError).
Proof.
  assert (Hl : truthy (VList [VStr "users"]) = true) by reflexivity.
  assert (Hi : truthy (VInt 3) = true) by reflexivity.
  split; [exact Hl |].
  split; [exact (proj1 (proj2 (guarded_subscript (VList [VStr "users"]) "users") Hl)) |].
  split; [exact (proj2 (proj2 (guarded_subscript (VList [VStr "users"]) "users") Hl)) |].
  split; [exact Hi |].
  exact (proj2 (guarded_subscript (VInt 3) "users") Hi).
Defined.

(** X8. The two comprehensions over the users split them: when the first
    one succeeds so does the second, every user is in exactly one of
    [admin_users] and [regular_users], and the two counts add up to the
    number of users. *)
Theorem admins_and_regulars_partition (us admin_users : list pyval) :
  comprehension is_admin us = inr admin_users ->
  exists regular_users,
    comprehension not_admin us = inr regular_users
    /\ (length admin_users + length regular_users = length us)%nat
    /\ (forall u, In u us <-> In u admin_users \/ In u regular_users)
    /\ Forall (fun u => is_admin u = inr true) admin_users
    /\ Forall (fun u => is_admin u = inr false) regular_users.
Proof.
  revert admin_users. induction us as [| u us IH]; cbn; intros admin_users.
  - intros [= <-]. exists []. repeat split; try constructor; tauto.
  - unfold is_admin at 1, not_admin at 1.
    destruct (getitem u "is_admin") as [e | flag] eqn:Hflag; cbn; [discriminate |].
    destruct (comprehension is_admin us) as [e | admins] eqn:Ha; [discriminate |].
    destruct (IH admins eq_refl) as (regulars & Hr & Hlen & Hin & Hall_a & Hall_r).
    rewrite Hr. intros [= <-].
    destruct (truthy flag) eqn:Ht; cbn.
    + exists regulars. split; [reflexivity |]. split; [cbn; lia |].
      split; [| split; [| exact Hall_r]].
      * intros x. cbn. rewrite Hin. tauto.
      * constructor; [| exact Hall_a]. unfold is_admin. rewrite Hflag. cbn.
        rewrite Ht. reflexivity.
    + exists (u :: regulars). split; [reflexivity |]. split; [cbn; lia |].
      split; [| split; [exact Hall_a |]].
      * intros x. cbn. rewrite Hin. tauto.
      * constructor; [| exact Hall_r]. unfold is_admin. rewrite Hflag. cbn.
        rewrite Ht. reflexivity.
Qed.

Definition two_users : list pyval :=
  [VDict [("id", VInt 1); ("is_admin", VBool true)];
   VDict [("id", VInt 2); ("is_admin", VBool false)]].

Lemma admins_and_regulars_partition_witness :
  exists regular_users,
    comprehension not_admin two_users = inr regular_users
    /\ (1 + length regular_users = 2)%nat.
Proof.
  destruct (admins_and_regulars_partition two_users
              [VDict [("id", VInt 1); ("is_admin", VBool true)]] eq_refl)
    as (regulars & Hr & Hlen & _).
  exists regulars. split; [exact Hr | exact Hlen].
Defined.

(** The error of a comprehension is the error of the first element its
    filter fails on. *)
Lemma comprehension_first_error keep (ok : list pyval) u rest e :
  Forall (fun x => exists b, keep x = inr b) ok ->
  keep u = inl e ->
  comprehension keep (ok ++ u :: rest) = inl e.
Proof.
  intros Hok Hu. induction Hok as [| x ok [b Hx] _ IH]; cbn.
  - rewrite Hu. reflexivity.
  - rewrite Hx, IH. reflexivity.
Qed.

Definition users_request : request :=
  Request GET [Lit BASE_URL; Lit "/api/admin/users"] None [].

Definition statistics_request : request :=
  Request GET [Lit BASE_URL; Lit "/api/admin/stats/system"] None [].

Definition statistics_line : text := [Lit "   Retrieved system statistics successfully"].

Definition health_header : text := [Lit (nl ++ "📊 Testing System Health...")].

Definition healthy_line : text := [Lit "✅ System is healthy"].

Definition unhealthy_line : text := [Lit "⚠️  System health check failed"].

Definition creation_header : text := [Lit (nl ++ "➕ Testing Alert Creation...")].

Lemma bind_err {W A B} (m : Py W A) (k : A -> Py W B) w w1 t e :
  m w = Outcome w1 t (inl e) -> bind m k w = Outcome w1 t (inl e).
Proof. intros Hm. unfold bind. rewrite Hm. reflexivity. Qed.

Ltac py_steps :=
  repeat first
    [ rewrite bind_bind | rewrite bind_print | rewrite bind_ret | rewrite bind_emit ].

Section Tests.
Context `{Builtins} {W : Type} `{Requests W} `{Clock W}.

(** X9. What "List users" does with a body that is not the expected
    object: without a ['users'] entry it binds neither [admin_users] nor
    [regular_users] and prints nothing; a JSON array that contains
    ['users'] raises [TypeError]; a user without ['is_admin'] raises the
    error of that subscript. No "Found ... users" line is printed. *)
Theorem list_users_malformed w w1 t users_response :
  test_api_endpoint "GET" [Lit "/api/admin/users"] None default_status w
    = Outcome w1 t (inr users_response) ->
  (and_then users_response (contains "users" users_response) = inr false ->
   list_users w = Outcome w1 t (inr (None, None)))
  /\ (forall l,
        users_response = VList l ->
        existsb (fun x => eq_str x "users") l = true ->
        list_users w = Outcome w1 t (inl (bad_index users_response)))
  /\ (forall d ok u rest e,
        users_response = VDict d ->
        dict_lookup "users" d = Some (VList (ok ++ u :: rest)) ->
        Forall (fun x => exists flag, getitem x "is_admin" = inr flag) ok ->
        getitem u "is_admin" = inl e ->
        list_users w = Outcome w1 t (inl e)).
Proof.
  intros Hcall. split; [| split].
  - intros Hguard. unfold list_users.
    rewrite (bind_ok _ _ _ _ _ _ Hcall), bind_liftE, Hguard, ret_run.
    rewrite prepend_Outcome, app_nil_r. reflexivity.
  - intros l -> Hin. unfold list_users.
    rewrite (bind_ok _ _ _ _ _ _ Hcall), bind_liftE.
    assert (Hguard : and_then (VList l) (contains "users" (VList l)) = inr true).
    { unfold and_then. destruct l; [discriminate |]. cbn [truthy contains].
      rewrite Hin. reflexivity. }
    rewrite Hguard, bind_liftE. cbn [getitem].
    rewrite prepend_Outcome, app_nil_r. reflexivity.
  - intros d ok u rest e -> Husers Hok Hu. unfold list_users.
    rewrite (bind_ok _ _ _ _ _ _ Hcall), bind_liftE.
    assert (Hguard : and_then (VDict d) (contains "users" (VDict d)) = inr true).
    { unfold and_then. destruct d; [discriminate |]. cbn [truthy contains].
      rewrite Husers. reflexivity. }
    rewrite Hguard, bind_liftE. cbn [getitem]. rewrite Husers.
    rewrite bind_liftE. cbn [iter]. rewrite bind_liftE.
    rewrite (comprehension_first_error is_admin ok u rest e).
    + rewrite prepend_Outcome, app_nil_r. reflexivity.
    + eapply Forall_impl; [exact Hok |]. intros x [flag Hflag].
      exists (truthy flag). unfold is_admin. rewrite Hflag. reflexivity.
    + unfold is_admin. rewrite Hu. reflexivity.
Qed.

(** X10. The health check reads [health['system_health']['overall_status']]
    through [get]: a missing entry counts as unhealthy, the status code is
    not consulted, and a value that is not an object where one is expected
    raises [AttributeError]. *)
Theorem system_health_outcomes w w1 t health :
  test_api_endpoint "GET" [Lit "/api/analytics/system/health"] None default_status w
    = Outcome w1 t (inr health) ->
  (truthy health = false ->
   system_health w = Outcome w1 (Print health_header :: t ++ [Print unhealthy_line]) (inr tt))
  /\ (truthy health = true -> (forall d, health <> VDict d) ->
      system_health w = Outcome w1 (Print health_header :: t) (inl (no_attribute health "get")))
  /\ (forall d,
        health = VDict d -> d <> [] ->
        match dict_lookup "system_health" d with
        | None =>
            system_health w
            = Outcome w1 (Print health_header :: t ++ [Print unhealthy_line]) (inr tt)
        | Some (VDict d') =>
            system_health w
            = Outcome w1
                (Print health_header :: t
                 ++ [Print (if eq_str (default VNone (dict_lookup "overall_status" d')) "healthy"
                            then healthy_line else unhealthy_line)])
                (inr tt)
        | Some v =>
            system_health w
            = Outcome w1 (Print health_header :: t) (inl (no_attribute v "get"))
        end).
Proof.
  intros Hcall. unfold system_health, health_header.
  rewrite bind_print, (bind_ok _ _ _ _ _ _ Hcall), bind_liftE.
  split; [| split].
  - intros Ht. unfold and_then. rewrite Ht, print_run, !prepend_Outcome. reflexivity.
  - intros Ht Hnd. unfold and_then. rewrite Ht.
    destruct health; try discriminate; cbn [get]; rewrite ?prepend_Outcome, ?app_nil_r;
      try reflexivity.
    exfalso. eapply Hnd. reflexivity.
  - intros d -> Hd. unfold and_then.
    destruct d as [| kv d]; [congruence |]. cbn [truthy get].
    destruct (dict_lookup "system_health" (kv :: d)) as [[| b | z | f | s | l | d'] |];
      cbn [get emap]; rewrite ?print_run, ?prepend_Outcome, ?app_nil_r; try reflexivity.
    + destruct (dict_lookup "overall_status" d'); unfold default; cbn [from_option id];
        match goal with |- context [eq_str ?a ?b] => destruct (eq_str a b) end;
        rewrite print_run, !prepend_Outcome; reflexivity.
Qed.

(** X11. The statistics test looks only at the truth value of the body:
    it reports success for any answer with a true JSON body, whatever the
    status code, and stays silent for [None], [{}] and the like. *)
Theorem statistics_ignore_status w w1 r v :
  send statistics_request w = (w1, inr r) ->
  body_of r = inr v ->
  let o := system_statistics w in
  result_of o = inr tt
  /\ world_of o = w1
  /\ (In statistics_line (printed (trace_of o)) <-> truthy v = true).
Proof.
  intros Hsend Hbody o. subst o.
  pose proof (answered_run "GET" [Lit "/api/admin/stats/system"] None default_status
                w _ w1 r (request_of_GET _ _) Hsend) as Hcall.
  rewrite Hbody, app_nil_r in Hcall.
  unfold system_statistics. rewrite bind_print, (bind_ok _ _ _ _ _ _ Hcall).
  unfold reported, status_line, expected_line, response_line, statistics_line.
  destruct (truthy v); rewrite ?print_run, ?ret_run;
    destruct (negb (status_code r =? default_status)%Z); cbn;
    (split; [reflexivity |]); (split; [reflexivity |]);
    (split; [| try tauto; try discriminate]); intros Hin;
    repeat match goal with
           | Hx : _ \/ _ |- _ => destruct Hx
           | Hx : False |- _ => destruct Hx
           | Hx : _ = _ |- _ => discriminate Hx
           end; auto.
Qed.

(** X12. "Create New Alert" sends the update and the archive requests only
    after a creation that reports success: with no admin user it sends
    nothing, and after a creation that returned [None], a false value or an
    object without a true [success] it stops without a further request. *)
Theorem update_and_archive_need_creation w :
  create_alert (Some []) w = Outcome w [Print creation_header] (inr tt)
  /\ (forall admin others admin_id w0 now w1 t create_response,
        getitem admin "id" = inr admin_id ->
        utcnow w = (w0, now) ->
        test_api_endpoint "POST" [Lit "/api/admin/alerts"]
          (Some (new_alert_data admin_id (isoformat (add_hours now 24) ++ "Z"))) 201 w0
          = Outcome w1 t (inr create_response) ->
        truthy create_response = false
        \/ (exists d, create_response = VDict d
                      /\ truthy (default VNone (dict_lookup "success" d)) = false) ->
        create_alert (Some (admin :: others)) w
        = Outcome w1 (Print creation_header :: t) (inr tt)).
Proof.
  split; [reflexivity |].
  intros admin others admin_id w0 now w1 t create_response Hid Hnow Hcall Hfail.
  unfold create_alert, creation_header.
  rewrite bind_print, bind_liftE. cbn [local].
  rewrite (bind_liftE (getitem admin "id")), Hid, bind_extern, Hnow.
  rewrite (bind_ok _ _ _ _ _ _ Hcall), bind_liftE.
  assert (Hguard : and_then create_response
                     (emap truthy (get create_response "success" VNone)) = inr false).
  { unfold and_then. destruct Hfail as [-> | (d & -> & Hs)]; [reflexivity |].
    destruct d as [| kv d]; [reflexivity |]. cbn [truthy get emap].
    destruct (dict_lookup "success" (kv :: d)); unfold default in Hs;
      cbn [from_option id truthy] in Hs; rewrite ?Hs; reflexivity. }
  rewrite Hguard, ret_run, !prepend_Outcome, app_nil_r. reflexivity.
Qed.

(** *** The reminder test, branch by branch *)

Definition reminder_header : text := [Lit (nl ++ "⏰ Testing Reminder System...")].

Definition no_active_line : text := [Lit "   ℹ️  No active alerts found to test reminders"].

Definition reminder_failed_line : text :=
  [Lit "   ⚠️  Reminder trigger failed or no users needed reminders"].

(** X13. With nothing to remind, [test_reminder_system] makes no second
    call: a listing that failed or has no ['alerts'] entry ends the test
    silently, and an empty list of active alerts prints the "No active
    alerts" line. *)
Theorem nothing_to_remind w w1 t listing :
  test_api_endpoint "GET" [Lit "/api/admin/alerts?status=active"] None default_status w
    = Outcome w1 t (inr listing) ->
  (and_then listing (contains "alerts" listing) = inr false ->
   test_reminder_system w = Outcome w1 (Print reminder_header :: t) (inr tt))
  /\ (forall d active,
        listing = VDict d ->
        dict_lookup "alerts" d = Some active ->
        truthy active = false ->
        test_reminder_system w
        = Outcome w1 (Print reminder_header :: t ++ [Print no_active_line]) (inr tt)).
Proof.
  intros Hcall. unfold test_reminder_system, reminder_header.
  rewrite bind_print, (bind_ok _ _ _ _ _ _ Hcall), bind_liftE. split.
  - intros Hguard. rewrite Hguard, ret_run, !prepend_Outcome, app_nil_r. reflexivity.
  - intros d active -> Hactive Hfalse.
    assert (Hguard : and_then (VDict d) (contains "alerts" (VDict d)) = inr true).
    { unfold and_then. destruct d; [discriminate |]. cbn [truthy contains].
      rewrite Hactive. reflexivity. }
    rewrite Hguard, bind_liftE. cbn [getitem]. rewrite Hactive, Hfalse.
    rewrite print_run, !prepend_Outcome. reflexivity.
Qed.

(** X14. A reminder call that returned [None], a false value, or an object
    without a true [success] makes the test print the one warning line
    that covers both "failed" and "no users needed reminders"; nothing is
    raised and nothing is retried. *)
Theorem reminder_failure_warns w w1 w2 t1 t2 listing active first alert_id answer :
  test_api_endpoint "GET" [Lit "/api/admin/alerts?status=active"] None default_status w
    = Outcome w1 t1 (inr listing) ->
  and_then listing (contains "alerts" listing) = inr true ->
  getitem listing "alerts" = inr active ->
  truthy active = true ->
  getitem0 active = inr first ->
  getitem first "id" = inr alert_id ->
  test_api_endpoint "POST"
    [Lit "/api/admin/alerts/"; Str_ alert_id; Lit "/send-reminder"] None default_status w1
    = Outcome w2 t2 (inr answer) ->
  truthy answer = false
  \/ (exists d, answer = VDict d
                /\ truthy (default VNone (dict_lookup "success" d)) = false) ->
  test_reminder_system w
  = Outcome w2 (Print reminder_header :: t1 ++ t2 ++ [Print reminder_failed_line]) (inr tt).
Proof.
  intros Hlist Hguard Halerts Htruthy Hfirst Hid Hpost Hfail.
  unfold test_reminder_system, reminder_header.
  rewrite bind_print, (bind_ok _ _ _ _ _ _ Hlist), bind_liftE, Hguard.
  rewrite bind_liftE, Halerts, Htruthy, bind_liftE, Hfirst, bind_liftE, Hid.
  rewrite (bind_ok _ _ _ _ _ _ Hpost), bind_liftE.
  assert (Hok : and_then answer (emap truthy (get answer "success" VNone)) = inr false).
  { unfold and_then. destruct Hfail as [-> | (d & -> & Hs)]; [reflexivity |].
    destruct d as [| kv d]; [reflexivity |]. cbn [truthy get emap].
    destruct (dict_lookup "success" (kv :: d)); unfold default in Hs;
      cbn [from_option id truthy] in Hs; rewrite ?Hs; reflexivity. }
  rewrite Hok, print_run, !prepend_prepend, prepend_Outcome.
  rewrite <- !app_assoc. reflexivity.
Qed.

(** X15. Answers the reminder test does not guard against: a first active
    alert without an ['id'] raises the error of that subscript before any
    reminder is requested, and a true answer to the reminder call that is
    not an object raises [AttributeError]. *)
Theorem reminder_malformed_raises w w1 t1 listing active first :
  test_api_endpoint "GET" [Lit "/api/admin/alerts?status=active"] None default_status w
    = Outcome w1 t1 (inr listing) ->
  and_then listing (contains "alerts" listing) = inr true ->
  getitem listing "alerts" = inr active ->
  truthy active = true ->
  getitem0 active = inr first ->
  (forall e,
      getitem first "id" = inl e ->
      test_reminder_system w = Outcome w1 (Print reminder_header :: t1) (inl e))
  /\ (forall alert_id w2 t2 answer,
        getitem first "id" = inr alert_id ->
        test_api_endpoint "POST"
          [Lit "/api/admin/alerts/"; Str_ alert_id; Lit "/send-reminder"] None
          default_status w1
          = Outcome w2 t2 (inr answer) ->
        truthy answer = true ->
        (forall d, answer <> VDict d) ->
        test_reminder_system w
        = Outcome w2 (Print reminder_header :: t1 ++ t2) (inl (no_attribute answer "get"))).
Proof.
  intros Hlist Hguard Halerts Htruthy Hfirst.
  unfold test_reminder_system, reminder_header.
  rewrite bind_print, (bind_ok _ _ _ _ _ _ Hlist), bind_liftE, Hguard.
  rewrite bind_liftE, Halerts, Htruthy, bind_liftE, Hfirst, bind_liftE.
  split.
  - intros e He. rewrite He, !prepend_Outcome, app_nil_r. reflexivity.
  - intros alert_id w2 t2 answer Hid Hpost Hanswer Hnd. rewrite Hid.
    rewrite (bind_ok _ _ _ _ _ _ Hpost), bind_liftE.
    assert (Hok : and_then answer (emap truthy (get answer "success" VNone))
                  = inl (no_attribute answer "get")).
    { unfold and_then. rewrite Hanswer.
      destruct answer; try reflexivity. exfalso. eapply Hnd. reflexivity. }
    rewrite Hok, !prepend_Outcome, app_nil_r. reflexivity.
Qed.

(** *** When the server is down *)

(** Every request is refused. *)
Definition unreachable : Prop :=
  forall req w, exists w' e,
    send req w = (w', inl e) /\ is_ConnectionError (exn_cls e) = true.

Lemma call_unreachable method endpoint data expected_status req w :
  unreachable ->
  request_of method endpoint data = Some req ->
  exists w',
    test_api_endpoint method endpoint data expected_status w
    = Outcome w'
        [Call method endpoint data expected_status; Http req;
         Print (Lit "❌ Connection failed to " :: Lit BASE_URL :: endpoint);
         Print [Lit "   Make sure the server is running: python run.py"]]
        (inr VNone).
Proof.
  intros Hdown Hreq. destruct (Hdown req w) as (w' & e & Hsend & Hconn).
  exists w'. rewrite (raised_run _ _ _ _ _ _ _ _ Hreq Hsend). unfold handled.
  rewrite Hconn. reflexivity.
Qed.

Definition health_request : request :=
  Request GET [Lit BASE_URL; Lit "/api/analytics/system/health"] None [].

Definition teams_request : request :=
  Request GET [Lit BASE_URL; Lit "/api/admin/teams"] None [].

Definition alerts_request : request :=
  Request GET [Lit BASE_URL; Lit "/api/admin/alerts"] None [].

Definition make_sure_line : text :=
  [Lit "   Make sure the server is running: python run.py"].

Definition failed_to (endpoint : string) : text :=
  [Lit "❌ Connection failed to "; Lit BASE_URL; Lit endpoint].

(** What [run_comprehensive_tests] prints when no request gets through. *)
Definition down_lines : list text :=
  [ [Lit "🧪 Starting Alerting Platform System Tests"];
    [Lit (str_repeat "=" 50)];
    health_header;
    failed_to "/api/analytics/system/health"; make_sure_line;
    unhealthy_line;
    [Lit (nl ++ "👨‍💼 Testing Admin APIs...")];
    failed_to "/api/admin/users"; make_sure_line;
    failed_to "/api/admin/teams"; make_sure_line;
    failed_to "/api/admin/alerts"; make_sure_line;
    creation_header ].

Lemma run_comprehensive_tests_down w :
  unreachable ->
  exists w' t,
    run_comprehensive_tests w = Outcome w' t (inl (unbound_local "admin_users"))
    /\ requests_in t = [health_request; users_request; teams_request; alerts_request]
    /\ printed t = down_lines.
Proof.
  intros Hdown.
  destruct (call_unreachable "GET" [Lit "/api/analytics/system/health"] None default_status
              _ w Hdown (request_of_GET _ _)) as [w1 Hcall1].
  destruct (call_unreachable "GET" [Lit "/api/admin/users"] None default_status
              _ w1 Hdown (request_of_GET _ _)) as [w2 Hcall2].
  destruct (call_unreachable "GET" [Lit "/api/admin/teams"] None default_status
              _ w2 Hdown (request_of_GET _ _)) as [w3 Hcall3].
  destruct (call_unreachable "GET" [Lit "/api/admin/alerts"] None default_status
              _ w3 Hdown (request_of_GET _ _)) as [w4 Hcall4].
  unfold run_comprehensive_tests, system_health, list_users, list_teams, Harness.list_alerts,
    create_alert.
  py_steps. rewrite (bind_ok _ _ _ _ _ _ Hcall1). py_steps.
  rewrite bind_liftE. cbn [and_then truthy]. py_steps.
  rewrite (bind_ok _ _ _ _ _ _ Hcall2). py_steps.
  rewrite bind_liftE. cbn [and_then truthy]. py_steps.
  rewrite (bind_ok _ _ _ _ _ _ Hcall3). py_steps.
  rewrite bind_liftE. cbn [and_then truthy]. py_steps.
  rewrite (bind_ok _ _ _ _ _ _ Hcall4). py_steps.
  rewrite bind_liftE. cbn [and_then truthy]. py_steps.
  rewrite bind_liftE. cbn [fst local].
  rewrite !prepend_prepend, prepend_Outcome.
  eexists _, _. split; [reflexivity |]. split; reflexivity.
Qed.

Lemma test_reminder_system_down w :
  unreachable ->
  exists w',
    test_reminder_system w
    = Outcome w'
        [Print reminder_header;
         Call "GET" [Lit "/api/admin/alerts?status=active"] None default_status;
         Http list_active_request;
         Print (failed_to "/api/admin/alerts?status=active"); Print make_sure_line]
        (inr tt).
Proof.
  intros Hdown.
  destruct (call_unreachable "GET" [Lit "/api/admin/alerts?status=active"] None
              default_status _ w Hdown (request_of_GET _ _)) as [w1 Hcall1].
  exists w1. unfold test_reminder_system.
  rewrite bind_print, (bind_ok _ _ _ _ _ _ Hcall1), bind_liftE.
  cbn [and_then truthy]. rewrite ret_run, !prepend_Outcome. reflexivity.
Qed.

(** X16. With the server down, [run_comprehensive_tests] does not run to
    its end: after the four listing calls of tests 1 and 2 have failed,
    test 3 reads [admin_users], which was never bound, and the function
    raises [UnboundLocalError]. Tests 4 to 7 are not run. *)
Theorem server_down_unbound_local w :
  unreachable ->
  let o := run_comprehensive_tests w in
  result_of o = inl (unbound_local "admin_users")
  /\ requests_in (trace_of o)
     = [health_request; users_request; teams_request; alerts_request]
  /\ last (printed (trace_of o)) = Some creation_header.
Proof.
  intros Hdown o. subst o.
  destruct (run_comprehensive_tests_down w Hdown) as (w' & t & Hrun & Hreq & Hprint).
  rewrite Hrun. cbn [result_of trace_of]. rewrite Hreq, Hprint. repeat split.
Qed.

(** X17. With the server down, [test_reminder_system] returns normally
    after its single listing call. *)
Theorem server_down_reminder_silent w :
  unreachable ->
  let o := test_reminder_system w in
  result_of o = inr tt
  /\ requests_in (trace_of o) = [list_active_request]
  /\ printed (trace_of o)
     = [reminder_header; failed_to "/api/admin/alerts?status=active"; make_sure_line].
Proof.
  intros Hdown o. subst o.
  destruct (test_reminder_system_down w Hdown) as (w' & Hrun).
  rewrite Hrun. repeat split.
Qed.
End Tests.

(** *** What holds of every run *)

(** The number of calls of [test_api_endpoint] in a trace. *)
Fixpoint calls_in (t : list event) : nat :=
  match t with
  | [] => 0
  | Call _ _ _ _ :: rest => S (calls_in rest)
  | _ :: rest => calls_in rest
  end.

Lemma calls_in_app t t' : calls_in (t ++ t') = (calls_in t + calls_in t')%nat.
Proof. induction t as [| [] t IH]; cbn; congruence. Qed.

(** Each call was answered by one request. *)
Definition one_request_per_call (t : list event) : Prop :=
  length (requests_in t) = calls_in t.

(** Each request went to [BASE_URL]. *)
Definition to_base_url (t : list event) : Prop :=
  forall req, In req (requests_in t) -> exists path, req_url req = Lit BASE_URL :: path.

Section Invariants.
Context `{Builtins} {W : Type} `{Requests W} `{Clock W}.
Variable Q : list event -> Prop.
Hypothesis Q_nil : Q [].
Hypothesis Q_app : forall t1 t2, Q t1 -> Q t2 -> Q (t1 ++ t2).
Hypothesis Q_print : forall l, Q [Print l].
Hypothesis Q_call : forall method endpoint data expected_status w,
    In method ["GET"; "POST"; "PUT"] ->
    Q (trace_of (test_api_endpoint method endpoint data expected_status w)).

Definition keeps {A} (m : Py W A) : Prop := forall w, Q (trace_of (m w)).

Lemma keeps_ret {A} (a : A) : keeps (ret a).
Proof. intros w. exact Q_nil. Qed.

Lemma keeps_print l : keeps (print l).
Proof. intros w. apply Q_print. Qed.

Lemma keeps_liftE {A} (r : exn + A) : keeps (liftE r).
Proof. intros w. exact Q_nil. Qed.

Lemma keeps_extern {A} (f : W -> W * (exn + A)) : keeps (extern f).
Proof. intros w. unfold extern. destruct (f w). exact Q_nil. Qed.

Lemma keeps_bind {A B} (m : Py W A) (k : A -> Py W B) :
  keeps m -> (forall a, keeps (k a)) -> keeps (bind m k).
Proof.
  intros Hm Hk w. unfold bind. specialize (Hm w).
  destruct (m w) as [w1 t1 [e | a]]; [exact Hm |].
  cbn. apply Q_app; [exact Hm | apply Hk].
Qed.

Lemma keeps_print_all ls : keeps (print_all ls).
Proof.
  induction ls as [| l ls IH]; cbn; [apply keeps_ret |].
  apply keeps_bind; [apply keeps_print | intros _; exact IH].
Qed.

Lemma keeps_call method endpoint data expected_status :
  In method ["GET"; "POST"; "PUT"] ->
  keeps (test_api_endpoint method endpoint data expected_status).
Proof. intros Hm w. apply Q_call. exact Hm. Qed.

Ltac keeps_step :=
  first
    [ apply keeps_ret
    | apply keeps_print
    | apply keeps_print_all
    | apply keeps_liftE
    | apply keeps_extern
    | apply keeps_call; cbn; tauto
    | apply keeps_bind; [| intros ?]
    | match goal with
      | |- keeps (if ?c then _ else _) => destruct c
      | |- keeps (match ?x with _ => _ end) => destruct x
      end ].

Lemma keeps_run_comprehensive_tests : keeps run_comprehensive_tests.
Proof.
  unfold run_comprehensive_tests, system_health, list_users, list_teams, Harness.list_alerts,
    create_alert, user_apis, analytics_apis, notification_history, system_statistics.
  repeat keeps_step.
Qed.

Lemma keeps_test_reminder_system : keeps test_reminder_system.
Proof. unfold test_reminder_system. repeat keeps_step. Qed.
End Invariants.

Section EveryRun.
Context `{Builtins} {W : Type} `{Requests W} `{Clock W}.

Lemma supported_request method endpoint data :
  In method ["GET"; "POST"; "PUT"] -> exists req, request_of method endpoint data = Some req.
Proof.
  intros [<- | [<- | [<- | []]]]; eexists;
    [apply request_of_GET | apply request_of_POST | apply request_of_PUT].
Qed.

Lemma handled_no_call method endpoint e : calls_in (fst (handled method endpoint e)) = 0%nat.
Proof.
  unfold handled.
  destruct (is_ConnectionError (exn_cls e)); [reflexivity |].
  destruct (is_Exception (exn_cls e)); reflexivity.
Qed.

Lemma reported_no_call method endpoint expected_status r :
  calls_in (reported method endpoint expected_status r) = 0%nat.
Proof.
  unfold reported. destruct (negb (status_code r =? expected_status)%Z); reflexivity.
Qed.

Lemma call_one_request method endpoint data expected_status w :
  In method ["GET"; "POST"; "PUT"] ->
  one_request_per_call (trace_of (test_api_endpoint method endpoint data expected_status w)).
Proof.
  intros Hm. destruct (supported_request method endpoint data Hm) as [req Hreq].
  unfold one_request_per_call.
  destruct (send req w) as [w1 [e | r]] eqn:Hsend.
  - rewrite (raised_run _ _ _ _ _ _ _ _ Hreq Hsend). cbn [trace_of requests_in calls_in length].
    rewrite EndpointMore.handled_no_request, handled_no_call. reflexivity.
  - rewrite (answered_run _ _ _ _ _ _ _ _ Hreq Hsend). cbn [trace_of requests_in calls_in length].
    rewrite requests_in_app, calls_in_app, EndpointMore.reported_no_request,
      reported_no_call.
    destruct (body_of r); cbn;
      rewrite ?EndpointMore.handled_no_request, ?handled_no_call; reflexivity.
Qed.

Lemma call_to_base_url method endpoint data expected_status w :
  to_base_url (trace_of (test_api_endpoint method endpoint data expected_status w)).
Proof.
  intros req.
  destruct (request_of method endpoint data) as [req' |] eqn:Hreq.
  - assert (Hurl : req_url req' = Lit BASE_URL :: endpoint)
      by exact (proj1 (EndpointMore.request_of_shape _ _ _ _ Hreq)).
    destruct (send req' w) as [w1 [e | r]] eqn:Hsend.
    + rewrite (raised_run _ _ _ _ _ _ _ _ Hreq Hsend). cbn [trace_of requests_in calls_in length].
      rewrite EndpointMore.handled_no_request. intros [<- | []]. eauto.
    + rewrite (answered_run _ _ _ _ _ _ _ _ Hreq Hsend). cbn [trace_of requests_in calls_in length].
      rewrite requests_in_app, EndpointMore.reported_no_request.
      destruct (body_of r); cbn; rewrite ?EndpointMore.handled_no_request;
        intros [<- | []]; eauto.
  - rewrite (unsupported_run _ _ _ _ _ Hreq). intros [].
Qed.

(** X18. In every run of [run_comprehensive_tests] and of
    [test_reminder_system], against any server, each call of
    [test_api_endpoint] is answered by exactly one request (the tests use
    GET, POST and PUT only, so the unsupported-method branch is never
    taken and nothing is sent twice), and every request goes to
    [BASE_URL]. *)
Theorem every_run_one_request_per_call w :
  one_request_per_call (trace_of (run_comprehensive_tests w))
  /\ to_base_url (trace_of (run_comprehensive_tests w))
  /\ one_request_per_call (trace_of (test_reminder_system w))
  /\ to_base_url (trace_of (test_reminder_system w)).
Proof.
  assert (Hone_app : forall t1 t2, one_request_per_call t1 -> one_request_per_call t2 ->
                                   one_request_per_call (t1 ++ t2)).
  { unfold one_request_per_call. intros t1 t2 H1' H2'.
    rewrite requests_in_app, calls_in_app, length_app. congruence. }
  assert (Hbase_app : forall t1 t2, to_base_url t1 -> to_base_url t2 ->
                                    to_base_url (t1 ++ t2)).
  { unfold to_base_url. intros t1 t2 H1' H2' req.
    rewrite requests_in_app, in_app_iff. intros [Hin | Hin]; auto. }
  repeat split.
  - apply (keeps_run_comprehensive_tests one_request_per_call); auto.
    + reflexivity.
    + intros l. reflexivity.
    + intros; apply call_one_request; assumption.
  - apply (keeps_run_comprehensive_tests to_base_url); auto.
    + intros req [].
    + intros l req [].
    + intros; apply call_to_base_url.
  - apply (keeps_test_reminder_system one_request_per_call); auto.
    + reflexivity.
    + intros l. reflexivity.
    + intros; apply call_one_request; assumption.
  - apply (keeps_test_reminder_system to_base_url); auto.
    + intros req [].
    + intros l req [].
    + intros; apply call_to_base_url.
Qed.
End EveryRun.
End HarnessMore.

(** * The script of test_system.py *)

Module HarnessMain.
Import PyOps Harness.

(** [time.sleep(seconds)] and [datetime.now().strftime(format)]. *)
Class LocalTime (W : Type) := {
  sleep : Z -> W -> W;
  now_strftime : string -> W -> W * string
}.

Definition completed_line (stamp : string) : text :=
  [Lit (nl ++ "✨ All tests completed at "); Str_ (VStr stamp)].

Section Script.
Context `{Builtins} {W : Type} `{Requests W} `{Clock W} `{LocalTime W}.

(** The block under [if __name__ == '__main__':]. *)
Definition main_block : Py W unit :=
  print [Lit "🚀 Alerting & Notification Platform - System Test"] ;;;
  print [Lit "Make sure the server is running with: python run.py"] ;;;
  print [] ;;;
  extern (fun w => (sleep 2 w, inr tt)) ;;;
  run_comprehensive_tests ;;;
  test_reminder_system ;;;
  let* stamp := extern (fun w => let '(w1, s) := now_strftime "%Y-%m-%d %H:%M:%S" w in
                                 (w1, inr s)) in
  print (completed_line stamp).
End Script.
End HarnessMain.

(** A server that is down: every request is refused, and kept. *)
Module Offline.
Record world := World { asked : list request; slept : Z }.

#[export] Instance requests : Harness.Requests world := {|
  Harness.send := fun r w => (World (asked w ++ [r]) (slept w), inl Script.refused)
|}.

#[export] Instance clock : Harness.Clock world := {|
  Harness.datetime := Z;
  Harness.utcnow := fun w => (w, 0%Z);
  Harness.add_hours := fun t h => (t + h)%Z;
  Harness.isoformat := fun t => "2026-01-01T00:00:00"
|}.

#[export] Instance local_time : HarnessMain.LocalTime world := {|
  HarnessMain.sleep := fun seconds w => World (asked w) (slept w + seconds);
  HarnessMain.now_strftime := fun _ w => (w, "2026-01-01 00:00:02")
|}.
End Offline.

(** * Properties of the script *)

Module MainFacts.
Import PyOps Harness EndpointFacts PlatformFacts HarnessMore HarnessMain.

Definition script_header : list text :=
  [ [Lit "🚀 Alerting & Notification Platform - System Test"];
    [Lit "Make sure the server is running with: python run.py"];
    [] ].

Section Facts.
Context `{Builtins} {W : Type} `{Requests W} `{Clock W} `{LocalTime W}.

(** X19. Run against a server that is down, the script ends in the
    [UnboundLocalError] of [run_comprehensive_tests]: the reminder test is
    never started, its listing is never requested, and the "All tests
    completed" line is not printed. *)
Theorem script_stops_when_server_down w :
  unreachable ->
  let o := main_block w in
  result_of o = inl (unbound_local "admin_users")
  /\ requests_in (trace_of o)
     = [health_request; users_request; teams_request; alerts_request]
  /\ printed (trace_of o) = script_header ++ down_lines
  /\ ~ In reminder_header (printed (trace_of o))
  /\ (forall stamp, ~ In (completed_line stamp) (printed (trace_of o))).
Proof.
  intros Hdown o. subst o.
  destruct (run_comprehensive_tests_down (sleep 2 w) Hdown)
    as (w' & t & Hrun & Hreq & Hprint).
  unfold main_block.
  rewrite !bind_print, bind_extern, (bind_err _ _ _ _ _ _ Hrun).
  rewrite !prepend_prepend, prepend_Outcome. cbn [result_of trace_of app].
  cbn [requests_in printed]. rewrite Hreq, Hprint.
  split; [reflexivity |]. split; [reflexivity |]. split; [reflexivity |].
  split.
  - cbn. intros Hin.
    repeat match goal with
           | Hx : _ \/ _ |- _ => destruct Hx
           | Hx : False |- _ => destruct Hx
           | Hx : _ = _ |- _ => discriminate Hx
           end.
  - intros stamp. cbn. intros Hin.
    repeat match goal with
           | Hx : _ \/ _ |- _ => destruct Hx
           | Hx : False |- _ => destruct Hx
           | Hx : _ = _ |- _ => discriminate Hx
           end.
Qed.
End Facts.
End MainFacts.

(** * Concrete runs *)

Module HarnessRuns.
Import PyOps Harness EndpointFacts PlatformFacts HarnessMore HarnessMain MainFacts.
Import AsciiBuiltins AsciiInstance Script.

Definition json_reply (code : Z) (body : pyval) : response :=
  Response code "{...}" "{...}" (inr body).

Definition answering (rs : list response) : Script.world :=
  Script.World (map inr rs) [].

Definition array_of_users : pyval := VList [VStr "users"].

Lemma list_users_malformed_witness :
  result_of (list_users (answering [json_reply 200 array_of_users]))
  = inl (bad_index array_of_users).
Proof.
  pose proof (proj1 (proj2
    (list_users_malformed (answering [json_reply 200 array_of_users]) _ _ array_of_users
       eq_refl)) [VStr "users"] eq_refl eq_refl) as Hrun.
  rewrite Hrun. reflexivity.
Defined.

Definition health_as_text : pyval := VDict [("system_health", VStr "ok")].

Lemma system_health_outcomes_witness :
  result_of (system_health (answering [json_reply 200 health_as_text]))
  = inl (no_attribute (VStr "ok") "get").
Proof.
  pose proof (proj2 (proj2
    (system_health_outcomes (answering [json_reply 200 health_as_text]) _ _ health_as_text
       eq_refl)) [("system_health", VStr "ok")] eq_refl ltac:(discriminate)) as Hrun.
  cbn [dict_lookup String.eqb Ascii.eqb Bool.eqb] in Hrun.
  rewrite Hrun. reflexivity.
Defined.

Definition server_error : response :=
  json_reply 500 (VDict [("error", VStr "Internal Server Error")]).

Lemma statistics_ignore_status_witness :
  status_code server_error = 500%Z
  /\ In statistics_line (printed (trace_of (system_statistics (answering [server_error])))).
Proof.
  split; [reflexivity |].
  assert (Hsend : send statistics_request (answering [server_error])
                  = (Script.World [] [statistics_request], inr server_error))
    by reflexivity.
  apply (proj2 (proj2
    (statistics_ignore_status (answering [server_error]) _ server_error
       (VDict [("error", VStr "Internal Server Error")]) Hsend eq_refl))).
  reflexivity.
Defined.

Definition refused_creation : response := json_reply 400 (VDict [("success", VBool false)]).

Definition an_admin : pyval := VDict [("id", VInt 1); ("is_admin", VBool true)].

Lemma update_and_archive_need_creation_witness :
  length (requests_in (trace_of (create_alert (Some [an_admin])
                                   (answering [refused_creation]))))
  = 1%nat.
Proof.
  pose proof (proj2 (update_and_archive_need_creation (answering [refused_creation]))
                an_admin [] (VInt 1) _ _ _ _ _ eq_refl eq_refl eq_refl
                (or_intror (ex_intro _ [("success", VBool false)] (conj eq_refl eq_refl))))
    as Hrun.
  rewrite Hrun. reflexivity.
Defined.

Definition no_alerts : pyval := VDict [("alerts", VList [])].

Lemma nothing_to_remind_witness :
  last (printed (trace_of (test_reminder_system (answering [json_reply 200 no_alerts]))))
  = Some no_active_line.
Proof.
  pose proof (proj2 (nothing_to_remind (answering [json_reply 200 no_alerts]) _ _ no_alerts
                       eq_refl) [("alerts", VList [])] (VList []) eq_refl eq_refl eq_refl)
    as Hrun.
  rewrite Hrun. reflexivity.
Defined.

Definition one_alert : pyval := VDict [("alerts", VList [VDict [("id", VInt 7)]])].

Definition refused_reminder : response := json_reply 400 (VDict [("success", VBool false)]).

Lemma reminder_failure_warns_witness :
  last (printed (trace_of (test_reminder_system
                             (answering [json_reply 200 one_alert; refused_reminder]))))
  = Some reminder_failed_line.
Proof.
  pose proof (reminder_failure_warns
                (answering [json_reply 200 one_alert; refused_reminder]) _ _ _ _
                one_alert (VList [VDict [("id", VInt 7)]]) (VDict [("id", VInt 7)]) (VInt 7)
                (VDict [("success", VBool false)])
                eq_refl eq_refl eq_refl eq_refl eq_refl eq_refl eq_refl
                (or_intror (ex_intro _ [("success", VBool false)] (conj eq_refl eq_refl))))
    as Hrun.
  rewrite Hrun. reflexivity.
Defined.

Definition alert_without_id : pyval := VDict [("alerts", VList [VDict [("title", VStr "x")]])].

Lemma reminder_malformed_raises_witness :
  result_of (test_reminder_system (answering [json_reply 200 alert_without_id]))
  = inl (Exn KeyError [Repr (VStr "id")]).
Proof.
  pose proof (proj1 (reminder_malformed_raises
                       (answering [json_reply 200 alert_without_id]) _ _ alert_without_id
                       (VList [VDict [("title", VStr "x")]]) (VDict [("title", VStr "x")])
                       eq_refl eq_refl eq_refl eq_refl eq_refl)
                (Exn KeyError [Repr (VStr "id")]) eq_refl) as Hrun.
  rewrite Hrun. reflexivity.
Defined.

Import Offline.

Lemma offline_unreachable : unreachable (W := world).
Proof. intros req w. eexists _, _. split; reflexivity. Defined.

Definition offline : world := World [] 0.

Lemma server_down_unbound_local_witness :
  result_of (run_comprehensive_tests offline) = inl (unbound_local "admin_users")
  /\ length (asked (world_of (run_comprehensive_tests offline))) = 4%nat.
Proof.
  split; [| vm_compute; reflexivity].
  exact (proj1 (server_down_unbound_local offline offline_unreachable)).
Defined.

Lemma server_down_reminder_silent_witness :
  result_of (test_reminder_system offline) = inr tt.
Proof. exact (proj1 (server_down_reminder_silent offline offline_unreachable)). Defined.

Lemma script_stops_when_server_down_witness :
  result_of (main_block offline) = inl (unbound_local "admin_users")
  /\ slept (world_of (main_block offline)) = 2%Z.
Proof.
  split; [| vm_compute; reflexivity].
  exact (proj1 (script_stops_when_server_down offline offline_unreachable)).
Defined.
End HarnessRuns.
